(** * dev_connect_2: the users and posts routes of the REST backend

    A shallow embedding of [routes/api/users] and [routes/api/posts]: each
    Express handler is a computation in a small state-and-exception monad
    over the document store, the response object and the console. *)

From Stdlib Require Import ZArith Ascii Sorted Permutation.
From stdpp Require Import base list strings.

Local Open Scope string_scope.
Local Open Scope list_scope.

(** ** Documents *)

(** Modelled from the spec: the Mongoose schemas [models/User] and
    [models/Post] are not among the sources.  The fields are the ones the
    data model of the specification lists and the ones the handlers read
    and write.  A user read through [select('-password')] carries no
    password, hence the option. *)
Record User := mkUser {
  user_id : string;
  user_name : string;
  user_email : string;
  user_avatar : string;
  user_password : option string
}.

Record Like := mkLike { like_user : string }.

Record Comment := mkComment {
  comment_id : string;
  comment_user : string;
  comment_text : string;
  comment_name : string;
  comment_avatar : string;
  comment_date : nat
}.

Record Post := mkPost {
  post_id : string;
  post_user : string;
  post_text : string;
  post_name : string;
  post_avatar : string;
  post_date : nat;
  likes : list Like;
  comments : list Comment
}.

Definition set_likes (p : Post) (ls : list Like) : Post :=
  mkPost (post_id p) (post_user p) (post_text p) (post_name p)
         (post_avatar p) (post_date p) ls (comments p).

Definition set_comments (p : Post) (cs : list Comment) : Post :=
  mkPost (post_id p) (post_user p) (post_text p) (post_name p)
         (post_avatar p) (post_date p) (likes p) cs.

Record Store := mkStore { users : list User; posts : list Post }.

Definition empty_store : Store := mkStore [] [].

(** ** JSON values, as [res.json] serialises them *)

#[warnings="-register-all"]
Inductive Json :=
| JNull
| JStr (s : string)
| JNum (n : nat)
| JArr (xs : list Json)
| JObj (fields : list (string * Json)).

(** [has_key k j]: some object inside [j] has a member named [k]. *)
Fixpoint has_key (k : string) (j : Json) : bool :=
  match j with
  | JArr xs => existsb (has_key k) xs
  | JObj fields =>
      existsb (fun kv : string * Json =>
                 let (k', v) := kv in String.eqb k' k || has_key k v)
              fields
  | _ => false
  end.

Definition json_of_like (l : Like) : Json := JObj [("user", JStr (like_user l))].

Definition json_of_comment (c : Comment) : Json :=
  JObj [("_id", JStr (comment_id c)); ("user", JStr (comment_user c));
        ("text", JStr (comment_text c)); ("name", JStr (comment_name c));
        ("avatar", JStr (comment_avatar c)); ("date", JNum (comment_date c))].

Definition json_of_likes (ls : list Like) : Json := JArr (map json_of_like ls).

Definition json_of_comments (cs : list Comment) : Json :=
  JArr (map json_of_comment cs).

Definition json_of_post (p : Post) : Json :=
  JObj [("_id", JStr (post_id p)); ("user", JStr (post_user p));
        ("text", JStr (post_text p)); ("name", JStr (post_name p));
        ("avatar", JStr (post_avatar p)); ("date", JNum (post_date p));
        ("likes", json_of_likes (likes p));
        ("comments", json_of_comments (comments p))].

Definition json_msg (m : string) : Json := JObj [("msg", JStr m)].

(** ** The response object, exceptions and the handler monad *)

Inductive Body :=
| BJson (j : Json)
| BText (s : string).

(** [statusCode] starts at 200; [body] is [None] until something is sent. *)
Record Res := mkRes { statusCode : nat; body : option Body }.

Definition fresh_res : Res := mkRes 200 None.

Inductive Exn :=
| CastError (message : string)
| TypeError (message : string)
| MongoError (message : string)
| HeadersSent
| JwtError (message : string).

Definition exn_message (e : Exn) : string :=
  match e with
  | CastError m => m
  | TypeError m => m
  | MongoError m => m
  | HeadersSent => "Cannot set headers after they are sent to the client"
  | JwtError m => m
  end.

(** [err.kind]: Mongoose sets it on a cast error only. *)
Definition exn_kind (e : Exn) : option string :=
  match e with
  | CastError _ => Some "ObjectId"
  | _ => None
  end.

Record HState := mkHState { db : Store; res : Res; console : list Json }.

Definition Handler (A : Type) : Type := HState -> (Exn + A) * HState.

Definition ret {A} (a : A) : Handler A := fun s => (inr a, s).

Definition bind {A B} (m : Handler A) (k : A -> Handler B) : Handler B :=
  fun s => match m s with
           | (inl e, s') => (inl e, s')
           | (inr a, s') => k a s'
           end.

Definition throw {A} (e : Exn) : Handler A := fun s => (inl e, s).

(** [try { m } catch (err) { h err }] *)
Definition try_catch {A} (m : Handler A) (h : Exn -> Handler A) : Handler A :=
  fun s => match m s with
           | (inl e, s') => h e s'
           | (inr a, s') => (inr a, s')
           end.

Declare Scope handler_scope.
Delimit Scope handler_scope with handler.
Notation "'let*' x ':=' c1 'in' c2" := (bind c1 (fun x => c2))
  (at level 10, x name, c1 at level 99, c2 at level 200) : handler_scope.
Notation "c1 ';;' c2" := (bind c1 (fun _ => c2))
  (at level 100, c2 at level 200, right associativity) : handler_scope.
Local Open Scope handler_scope.

Definition get_db : Handler Store := fun s => (inr (db s), s).

Definition put_db (d : Store) : Handler unit :=
  fun s => (inr tt, mkHState d (res s) (console s)).

(** [res.status(c)] *)
Definition res_status (c : nat) : Handler unit :=
  fun s => (inr tt, mkHState (db s) (mkRes c (body (res s))) (console s)).

(** Sending twice is an error of the HTTP layer. *)
Definition res_send_body (b : Body) : Handler unit :=
  fun s => match body (res s) with
           | Some _ => (inl HeadersSent, s)
           | None => (inr tt,
                      mkHState (db s) (mkRes (statusCode (res s)) (Some b))
                               (console s))
           end.

(** [res.json(j)] and [res.send(text)] *)
Definition res_json (j : Json) : Handler unit := res_send_body (BJson j).
Definition res_send (t : string) : Handler unit := res_send_body (BText t).

(** [console.error(j)] *)
Definition console_error (j : Json) : Handler unit :=
  fun s => (inr tt, mkHState (db s) (res s) (console s ++ [j])).

(** Reading a property of a value that may be [null]. *)
Definition deref {A} (o : option A) (prop : string) : Handler A :=
  match o with
  | Some a => ret a
  | None => throw (TypeError ("Cannot read property '" ++ prop ++ "' of null"))
  end.

(** ** Array helpers *)

(** [xs.indexOf(x)] on an array of strings: the first index, or -1. *)
Fixpoint indexOf (x : string) (xs : list string) : Z :=
  match xs with
  | [] => (-1)%Z
  | y :: ys =>
      if String.eqb y x then 0%Z
      else let i := indexOf x ys in
           if (i <? 0)%Z then (-1)%Z else (i + 1)%Z
  end.

(** [xs.splice(start, 1)]: a negative [start] counts from the end. *)
Definition splice1 {A} (start : Z) (xs : list A) : list A :=
  let len := Z.of_nat (length xs) in
  let from := if (start <? 0)%Z then Z.max (len + start) 0
              else Z.min start len in
  delete (Z.to_nat from) xs.

(** [xs.find(pred)] is [List.find]; [xs.filter(pred)] is [List.filter]. *)
Definition is_user (uid : string) (l : Like) : bool :=
  String.eqb (like_user l) uid.

(** ** The document store *)

Definition find_post (pid : string) (ps : list Post) : option Post :=
  find (fun p => String.eqb (post_id p) pid) ps.

Definition find_user (uid : string) (us : list User) : option User :=
  find (fun u => String.eqb (user_id u) uid) us.

Definition find_email (email : string) (us : list User) : option User :=
  find (fun u => String.eqb (user_email u) email) us.

(** [doc.save()] on a document read from the store: the stored document
    with the same [_id] is replaced. *)
Definition save_post (p : Post) (ps : list Post) : list Post :=
  map (fun q => if String.eqb (post_id q) (post_id p) then p else q) ps.

(** [doc.save()] on a document built with [new]: an insert, which the
    store refuses when the [_id] is taken. *)
Definition insert_post (p : Post) (ps : list Post) : option (list Post) :=
  match find_post (post_id p) ps with
  | Some _ => None
  | None => Some (ps ++ [p])
  end.

Definition insert_user (u : User) (us : list User) : option (list User) :=
  match find_user (user_id u) us with
  | Some _ => None
  | None => Some (us ++ [u])
  end.

Definition duplicate_key : Exn := MongoError "E11000 duplicate key error".

(** [doc.remove()] *)
Definition remove_post (p : Post) (ps : list Post) : list Post :=
  List.filter (fun q => negb (String.eqb (post_id q) (post_id p))) ps.

(** [.sort({ date: -1 })]: newest first. *)
Fixpoint insert_by_date (p : Post) (ps : list Post) : list Post :=
  match ps with
  | [] => [p]
  | q :: qs =>
      if Nat.leb (post_date q) (post_date p) then p :: q :: qs
      else q :: insert_by_date p qs
  end.

Definition sort_date_desc (ps : list Post) : list Post :=
  foldr insert_by_date [] ps.

(** [.select('-password')] *)
Definition select_no_password (u : User) : User :=
  mkUser (user_id u) (user_name u) (user_email u) (user_avatar u) None.

(** What the surroundings hand to one request: the identifier Mongoose
    gives a document built during the request, the clock behind the
    schemas' date default, and the salt [bcrypt.genSalt(10)] draws. *)
Record Env := mkEnv { env_oid : string; env_now : nat; env_salt : string }.

(** express-validator reports every failed check. *)
Record ValidationError := mkVErr {
  verr_param : string;
  verr_msg : string;
  verr_value : string
}.

Definition json_of_verr (e : ValidationError) : Json :=
  JObj [("location", JStr "body"); ("param", JStr (verr_param e));
        ("msg", JStr (verr_msg e)); ("value", JStr (verr_value e))].

Definition json_of_errors (es : list ValidationError) : Json :=
  JObj [("errors", JArr (map json_of_verr es))].

(** [check(param, msg)] followed by a validator: a list with the error when
    [ok] is false. *)
Definition check (param msg value : string) (ok : bool) : list ValidationError :=
  if ok then [] else [mkVErr param msg value].

(** validator.js [isEmpty] and [isLength({ min })] *)
Definition isEmpty (s : string) : bool := Nat.eqb (String.length s) 0.
Definition isLength_min (min : nat) (s : string) : bool :=
  Nat.leb min (String.length s).

(** ** Stand-ins for the outside libraries, to run the handlers on examples *)

Definition is_hex (c : ascii) : bool :=
  let n := nat_of_ascii c in
  (Nat.leb 48 n && Nat.leb n 57) || (Nat.leb 97 n && Nat.leb n 102).

Definition hex24 (s : string) : bool :=
  Nat.eqb (String.length s) 24 && forallb is_hex (String.list_ascii_of_string s).

Definition has_at (s : string) : bool :=
  existsb (fun c => Ascii.eqb c "@"%char) (String.list_ascii_of_string s).

Definition toy_gravatar (email : string) : string :=
  "//www.gravatar.com/avatar/" ++ email ++ "?s=200&r=pg&d=mm".

Definition toy_hash (password salt : string) : string := salt ++ "." ++ password.

Definition toy_jwt (payload : Json) (secret : string) (expiresIn : Z)
  : option string :=
  match payload with
  | JObj ((_, JObj ((_, JStr uid) :: _)) :: _) => Some ("jwt." ++ uid)%string
  | _ => None
  end.

(** ** A small store to run the routes on *)

Definition alice_id : string := "5d1a0c0f1c9d440000a1b2c1".
Definition bob_id : string := "5d1a0c0f1c9d440000a1b2c2".
Definition carol_id : string := "5d1a0c0f1c9d440000a1b2c3".
Definition post1_id : string := "5d1a0c0f1c9d440000a1b2d1".
Definition missing_id : string := "5d1a0c0f1c9d440000a1b2ff".

Definition alice : User :=
  mkUser alice_id "Alice" "alice@x.com" (toy_gravatar "alice@x.com")
         (Some (toy_hash "secret1" "salt1")).

Definition bob : User :=
  mkUser bob_id "Bob" "bob@x.com" (toy_gravatar "bob@x.com")
         (Some (toy_hash "secret2" "salt2")).

(** Two comments of Alice on her own post; the newer one comes first. *)
Definition comment_a : Comment :=
  mkComment "5d1a0c0f1c9d440000a1b2e1" alice_id "first" "Alice"
            (toy_gravatar "alice@x.com") 1.

Definition comment_b : Comment :=
  mkComment "5d1a0c0f1c9d440000a1b2e2" alice_id "second" "Alice"
            (toy_gravatar "alice@x.com") 2.

Definition post1 : Post :=
  mkPost post1_id alice_id "hi" "Alice" (toy_gravatar "alice@x.com") 0
         [mkLike alice_id] [comment_b; comment_a].

Definition store1 : Store := mkStore [alice; bob] [post1].

Definition env1 : Env := mkEnv carol_id 10 "salt3".

(** ** The routes *)

Inductive Request :=
| RegisterUser (name email password : string)
| CreatePost (uid text : string)
| ListPosts (uid : string)
| GetPost (uid pid : string)
| DeletePost (uid pid : string)
| LikePost (uid pid : string)
| UnlikePost (uid pid : string)
| AddComment (uid pid text : string)
| DeleteComment (uid pid cid : string).

Section Routes.

(** The libraries the routes call: Mongoose's cast of an identifier,
    validator.js, gravatar, bcryptjs, jsonwebtoken and the configured
    signing secret. *)
Variable validObjectId : string -> bool.
Variable isEmail : string -> bool.
Variable gravatar_url : string -> string.
Variable bcrypt_hash : string -> string -> string.
Variable jwt_sign : Json -> string -> Z -> option string.
Variable jwtSecret : string.

Definition cast_message (v : string) : string :=
  "Cast to ObjectId failed for value " ++ v ++ " at path _id".

(** [Post.findById(id)] *)
Definition Post_findById (pid : string) : Handler (option Post) :=
  if validObjectId pid then
    let* d := get_db in ret (find_post pid (posts d))
  else throw (CastError (cast_message pid)).

(** [User.findById(id).select('-password')] *)
Definition User_findById_no_password (uid : string) : Handler (option User) :=
  if validObjectId uid then
    let* d := get_db in
    ret (option_map select_no_password (find_user uid (users d)))
  else throw (CastError (cast_message uid)).

(** [User.findOne({ email })] *)
Definition User_findOne (email : string) : Handler (option User) :=
  let* d := get_db in ret (find_email email (users d)).

Definition Post_save (p : Post) : Handler unit :=
  let* d := get_db in put_db (mkStore (users d) (save_post p (posts d))).

Definition Post_remove (p : Post) : Handler unit :=
  let* d := get_db in put_db (mkStore (users d) (remove_post p (posts d))).

Definition Post_save_new (p : Post) : Handler unit :=
  let* d := get_db in
  match insert_post p (posts d) with
  | Some ps => put_db (mkStore (users d) ps)
  | None => throw duplicate_key
  end.

Definition User_save_new (u : User) : Handler unit :=
  let* d := get_db in
  match insert_user u (users d) with
  | Some us => put_db (mkStore us (posts d))
  | None => throw duplicate_key
  end.

(** The payload the registration route signs: [{ user: { id } }]. *)
Definition jwt_payload (uid : string) : Json :=
  JObj [("user", JObj [("id", JStr uid)])].

(** The validation chain of POST api/users. *)
Definition register_errors (name email password : string) : list ValidationError :=
  check "name" "Name is required" name (negb (isEmpty name))
  ++ check "email" "Please include a valid email" email (isEmail email)
  ++ check "password" "Please enter a password with 6 or more characters"
           password (isLength_min 6 password).

(** POST api/users *)
Definition register (env : Env) (name email password : string) : Handler unit :=
  let errors := register_errors name email password in
  match errors with
  | _ :: _ => res_status 400 ;; res_json (json_of_errors errors)
  | [] =>
      let* signing :=
        try_catch
          (let* user := User_findOne email in
           match user with
           | Some _ =>
               res_status 400 ;;
               res_json (JObj [("errors", JArr [json_msg "User already exists"])]) ;;
               ret None
           | None =>
               let avatar := gravatar_url email in
               let user := mkUser (env_oid env) name email avatar (Some password) in
               let salt := env_salt env in
               let user := mkUser (user_id user) (user_name user) (user_email user)
                                  (user_avatar user)
                                  (Some (bcrypt_hash password salt)) in
               User_save_new user ;;
               ret (Some (jwt_payload (user_id user)))
           end)
          (fun error =>
             console_error (JNum 500) ;;
             throw (TypeError "Cannot read property 'send' of undefined")) in
      (* the callback handed to jwt.sign runs outside the try block *)
      match signing with
      | None => ret tt
      | Some payload =>
          match jwt_sign payload jwtSecret 360000%Z with
          | Some token => res_json (JObj [("token", JStr token)])
          | None => throw (JwtError "jwt.sign failed")
          end
      end
  end.

(** POST api/posts *)
Definition createPost (env : Env) (uid text : string) : Handler unit :=
  let errors := check "text" "Text is required" text (negb (isEmpty text)) in
  match errors with
  | _ :: _ => res_status 400 ;; res_json (json_of_errors errors)
  | [] =>
      try_catch
        (let* user := User_findById_no_password uid in
         let* u := deref user "name" in
         let newPost := mkPost (env_oid env) uid text (user_name u)
                               (user_avatar u) (env_now env) [] [] in
         Post_save_new newPost ;;
         res_json (json_of_post newPost))
        (fun err =>
           console_error (JStr (exn_message err)) ;;
           res_status 500 ;; res_send "Server Error")
  end.

(** GET api/posts *)
Definition listPosts : Handler unit :=
  try_catch
    (let* d := get_db in
     res_json (JArr (map json_of_post (sort_date_desc (posts d)))))
    (fun err =>
       console_error (json_msg (exn_message err)) ;;
       res_status 500 ;; res_send "Server Error").

(** What the catch blocks of the two [/:post_id] routes do. *)
Definition catch_object_id (err : Exn) : Handler unit :=
  console_error (json_msg (exn_message err)) ;;
  match exn_kind err with
  | Some "ObjectId" => res_status 404 ;; res_json (json_msg "Invalid post id")
  | _ => res_status 500 ;; res_send "Server Error"
  end.

(** GET api/posts/:post_id *)
Definition getPost (pid : string) : Handler unit :=
  try_catch
    (let* post := Post_findById pid in
     match post with
     | None => res_status 404 ;; res_json (json_msg "Post not found")
     | Some p => res_json (json_of_post p)
     end)
    catch_object_id.

(** DELETE api/posts/:post_id.  For a requester who is not the author the
    source calls [res.status(401).res(...)]; the response object has no
    [res] method, so the call raises a TypeError after the status is set. *)
Definition deletePost (uid pid : string) : Handler unit :=
  try_catch
    (let* post := Post_findById pid in
     match post with
     | None => res_status 404 ;; res_json (json_msg "Post not found")
     | Some p =>
         if negb (String.eqb (post_user p) uid) then
           res_status 401 ;;
           throw (TypeError "res.status(...).res is not a function")
         else
           Post_remove p ;; res_json (json_msg "Post removed")
     end)
    catch_object_id.

(** PUT api/posts/like/:post_id: the try block. *)
Definition likePost_try (uid pid : string) : Handler unit :=
  let* post := Post_findById pid in
  let* p := deref post "likes" in
  if Nat.ltb 0 (length (List.filter (is_user uid) (likes p))) then
    res_status 400 ;; res_json (json_msg "Post already liked")
  else
    let p := set_likes p (mkLike uid :: likes p) in
    Post_save p ;;
    res_json (json_of_likes (likes p)).

(** The catch block of the route is empty. *)
Definition likePost (uid pid : string) : Handler unit :=
  try_catch (likePost_try uid pid) (fun err => ret tt).

(** PUT api/posts/unlike/:post_id: the try block. *)
Definition unlikePost_try (uid pid : string) : Handler unit :=
  let* post := Post_findById pid in
  let* p := deref post "likes" in
  if Nat.eqb (length (List.filter (is_user uid) (likes p))) 0 then
    res_status 400 ;; res_json (json_msg "Post has not yet been liked")
  else
    let removeIndex := indexOf uid (map like_user (likes p)) in
    let p := set_likes p (splice1 removeIndex (likes p)) in
    Post_save p ;;
    res_json (json_of_likes (likes p)).

(** The catch block of the route is empty. *)
Definition unlikePost (uid pid : string) : Handler unit :=
  try_catch (unlikePost_try uid pid) (fun err => ret tt).

(** POST api/posts/comment/:post_id *)
Definition addComment (env : Env) (uid pid text : string) : Handler unit :=
  let errors := check "text" "Text is required" text (negb (isEmpty text)) in
  match errors with
  | _ :: _ => res_status 400 ;; res_json (json_of_errors errors)
  | [] =>
      try_catch
        (let* user := User_findById_no_password uid in
         let* post := Post_findById pid in
         let* u := deref user "name" in
         let newComment := mkComment (env_oid env) uid text (user_name u)
                                     (user_avatar u) (env_now env) in
         let* p := deref post "comments" in
         let p := set_comments p (newComment :: comments p) in
         Post_save p ;;
         res_json (json_of_comments (comments p)))
        (fun err =>
           console_error (JStr (exn_message err)) ;;
           res_status 500 ;; res_send "Server Error")
  end.

(** DELETE api/posts/comment/:post_id/:comment_id *)
Definition deleteComment (uid pid cid : string) : Handler unit :=
  try_catch
    (let* post := Post_findById pid in
     let* p := deref post "comments" in
     let comment := find (fun c => String.eqb (comment_id c) cid) (comments p) in
     match comment with
     | None => res_status 404 ;; res_json (json_msg "Comment does not exist")
     | Some c =>
         if negb (String.eqb (comment_user c) uid) then
           res_status 401 ;; res_json (json_msg "User not authorized")
         else
           let removeIndex := indexOf uid (map comment_user (comments p)) in
           let p := set_comments p (splice1 removeIndex (comments p)) in
           Post_save p ;;
           res_json (json_of_comments (comments p))
     end)
    (fun err =>
       console_error (JStr (exn_message err)) ;;
       res_status 500 ;; res_send "Server Error").

(** The router.  [uid] is [req.user.id], which the authentication
    middleware has attached before a private route runs. *)
Definition handle (env : Env) (r : Request) : Handler unit :=
  match r with
  | RegisterUser name email password => register env name email password
  | CreatePost uid text => createPost env uid text
  | ListPosts _ => listPosts
  | GetPost _ pid => getPost pid
  | DeletePost uid pid => deletePost uid pid
  | LikePost uid pid => likePost uid pid
  | UnlikePost uid pid => unlikePost uid pid
  | AddComment uid pid text => addComment env uid pid text
  | DeleteComment uid pid cid => deleteComment uid pid cid
  end.

(** One request against a store: a fresh response, an empty console. *)
Definition run (h : Handler unit) (d : Store) : (Exn + unit) * HState :=
  h (mkHState d fresh_res []).

Definition store_after (h : Handler unit) (d : Store) : Store := db (snd (run h d)).
Definition response_of (h : Handler unit) (d : Store) : Res := res (snd (run h d)).
Definition console_of (h : Handler unit) (d : Store) : list Json :=
  console (snd (run h d)).

(** Requests served one after the other. *)
Definition serve (trace : list (Env * Request)) (d : Store) : Store :=
  fold_left (fun d er => store_after (handle (fst er) (snd er)) d) trace d.

(** ** The responses the claims name *)

Definition already_liked : Res :=
  mkRes 400 (Some (BJson (json_msg "Post already liked"))).

Definition not_yet_liked : Res :=
  mkRes 400 (Some (BJson (json_msg "Post has not yet been liked"))).

Definition server_error : Res := mkRes 500 (Some (BText "Server Error")).

Definition invalid_post_id : Res :=
  mkRes 404 (Some (BJson (json_msg "Invalid post id"))).

Definition user_not_authorized : Res :=
  mkRes 401 (Some (BJson (json_msg "User not authorized"))).

Definition duplicate_email : Res :=
  mkRes 400 (Some (BJson (JObj [("errors", JArr [json_msg "User already exists"])]))).

(** The three checks of the registration route all pass. *)
Definition valid_registration (name email password : string) : bool :=
  negb (isEmpty name) && isEmail email && isLength_min 6 password.

(** The document the registration route stores. *)
Definition registered_user (env : Env) (name email password : string) : User :=
  mkUser (env_oid env) name email (gravatar_url email)
         (Some (bcrypt_hash password (env_salt env))).

(** No post holds the same user twice in its like list. *)
Definition likes_unique (d : Store) : Prop :=
  Forall (fun p => List.NoDup (map like_user (likes p))) (posts d).

(** A response carries no member named [password]. *)
Definition no_password (r : Res) : bool :=
  match body r with
  | Some (BJson j) => negb (has_key "password" j)
  | _ => true
  end.

(** The bodies the routes send. *)
Inductive route_body : option Body -> Prop :=
| rb_none : route_body None
| rb_text t : route_body (Some (BText t))
| rb_msg m : route_body (Some (BJson (json_msg m)))
| rb_errors es : route_body (Some (BJson (json_of_errors es)))
| rb_exists :
    route_body (Some (BJson (JObj [("errors", JArr [json_msg "User already exists"])])))
| rb_token t : route_body (Some (BJson (JObj [("token", JStr t)])))
| rb_post p : route_body (Some (BJson (json_of_post p)))
| rb_posts ps : route_body (Some (BJson (JArr (map json_of_post ps))))
| rb_likes ls : route_body (Some (BJson (json_of_likes ls)))
| rb_comments cs : route_body (Some (BJson (json_of_comments cs))).

(** Users stored under an email. *)
Definition users_with_email (email : string) (d : Store) : list User :=
  List.filter (fun u => String.eqb (user_email u) email) (users d).

(** ** More responses *)

Definition ok_json (j : Json) : Res := mkRes 200 (Some (BJson j)).

Definition post_not_found : Res :=
  mkRes 404 (Some (BJson (json_msg "Post not found"))).

Definition comment_not_found : Res :=
  mkRes 404 (Some (BJson (json_msg "Comment does not exist"))).

Definition post_removed : Res := ok_json (json_msg "Post removed").

Definition validation_failed (es : list ValidationError) : Res :=
  mkRes 400 (Some (BJson (json_of_errors es))).

Definition text_required (text : string) : list ValidationError :=
  [mkVErr "text" "Text is required" text].

(** [p] is at least as recent as [q]. *)
Definition newer_first (p q : Post) : Prop := post_date q <= post_date p.

(** Store invariants: identifiers and emails are not shared. *)
Definition post_ids_unique (d : Store) : Prop :=
  List.NoDup (map post_id (posts d)).

Definition user_ids_unique (d : Store) : Prop :=
  List.NoDup (map user_id (users d)).

Definition emails_unique (d : Store) : Prop :=
  List.NoDup (map user_email (users d)).

(** The requests that run against posts only. *)
Definition is_register (r : Request) : bool :=
  match r with RegisterUser _ _ _ => true | _ => false end.

Definition is_like_or_unlike (r : Request) : bool :=
  match r with LikePost _ _ | UnlikePost _ _ => true | _ => false end.

(** The documents the post and comment routes build. *)
Definition new_post (env : Env) (uid text : string) (u : User) : Post :=
  mkPost (env_oid env) uid text (user_name u) (user_avatar u) (env_now env) [] [].

Definition new_comment (env : Env) (uid text : string) (u : User) : Comment :=
  mkComment (env_oid env) uid text (user_name u) (user_avatar u) (env_now env).

(** Identifiers and emails are not shared. *)
Definition store_wf (d : Store) : Prop :=
  post_ids_unique d /\ user_ids_unique d /\ emails_unique d.

(** Comments written by somebody other than [uid], in their order. *)
Definition comments_of_others (uid : string) (cs : list Comment) : list Comment :=
  List.filter (fun c => negb (String.eqb (comment_user c) uid)) cs.

(** ** Lemmas on the array helpers and the store *)

Lemma filter_is_user_nil (uid : string) (ls : list Like) :
  length (List.filter (is_user uid) ls) = 0 <-> ~ In uid (map like_user ls).
Proof.
  induction ls as [|l ls IH]; simpl.
  - split; [intros _ []|reflexivity].
  - unfold is_user at 1. destruct (String.eqb_spec (like_user l) uid) as [E|E]; simpl.
    + split; [discriminate|]. intros H. exfalso. apply H. now left.
    + rewrite IH. split.
      * intros H [F|F]; [now apply E|now apply H].
      * intros H F. apply H. now right.
Qed.

Lemma indexOf_first (x : string) (xs : list string) :
  In x xs ->
  exists l1 l2, xs = l1 ++ x :: l2 /\ ~ In x l1 /\
                indexOf x xs = Z.of_nat (length l1).
Proof.
  induction xs as [|y ys IH]; simpl; [intros []|].
  intros Hin. destruct (String.eqb_spec y x) as [E|E].
  - subst y. exists [], ys. repeat split. intros [].
  - destruct Hin as [F|Hin]; [contradiction|].
    destruct (IH Hin) as (l1 & l2 & -> & Hl1 & Hi).
    exists (y :: l1), l2. repeat split.
    + intros [F|F]; [now apply E|now apply Hl1].
    + rewrite Hi. destruct (Z.ltb_spec (Z.of_nat (length l1)) 0) as [L|L]; [lia|].
      simpl length. lia.
Qed.

Lemma indexOf_absent (x : string) (xs : list string) :
  ~ In x xs -> indexOf x xs = (-1)%Z.
Proof.
  induction xs as [|y ys IH]; simpl; [reflexivity|].
  intros H. destruct (String.eqb_spec y x) as [E|E].
  - exfalso. apply H. now left.
  - rewrite IH; [reflexivity|]. intros F. apply H. now right.
Qed.

Lemma splice1_middle {A} (l1 l2 : list A) (x : A) :
  splice1 (Z.of_nat (length l1)) (l1 ++ x :: l2) = l1 ++ l2.
Proof.
  unfold splice1.
  destruct (Z.ltb_spec (Z.of_nat (length l1)) 0) as [L|L]; [lia|].
  rewrite Z.min_l by (rewrite length_app; simpl; lia).
  rewrite Nat2Z.id. clear L. induction l1 as [|a l1 IH]; simpl; [reflexivity|].
  now rewrite IH.
Qed.

Lemma find_post_id (pid : string) (ps : list Post) (p : Post) :
  find_post pid ps = Some p -> post_id p = pid.
Proof.
  unfold find_post. intros H. apply find_some in H as [_ H].
  now apply String.eqb_eq in H.
Qed.

Lemma find_post_save (p q : Post) (ps : list Post) :
  find_post (post_id p) ps = Some q ->
  find_post (post_id p) (save_post p ps) = Some p.
Proof.
  unfold save_post, find_post. induction ps as [|r rs IH]; simpl.
  - discriminate.
  - destruct (String.eqb_spec (post_id r) (post_id p)) as [E|E]; simpl.
    + intros _. now rewrite String.eqb_refl.
    + destruct (String.eqb_spec (post_id r) (post_id p)); [contradiction|]. exact IH.
Qed.

Lemma store_eta (d : Store) : mkStore (users d) (posts d) = d.
Proof. now destruct d. Qed.

(** Unfolds one request down to the store and the response. *)
Ltac run_handler :=
  unfold store_after, response_of, console_of, run, Post_findById,
    User_findById_no_password, User_findOne, Post_save, Post_save_new,
    User_save_new, Post_remove, deref, res_json, res_send, res_send_body,
    res_status, console_error, get_db, put_db, try_catch, bind, ret, throw;
  simpl.

(** ** Likes *)

Lemma likePost_present (d : Store) (uid pid : string) (p : Post) :
  validObjectId pid = true ->
  find_post pid (posts d) = Some p ->
  In uid (map like_user (likes p)) ->
  run (likePost uid pid) d = (inr tt, mkHState d already_liked []).
Proof.
  intros Hv Hp Hin. unfold likePost, likePost_try. run_handler. rewrite Hv. simpl. rewrite Hp. simpl.
  destruct (length (List.filter (is_user uid) (likes p))) eqn:E; simpl.
  - apply filter_is_user_nil in E. contradiction.
  - reflexivity.
Qed.

Lemma likePost_absent (d : Store) (uid pid : string) (p : Post) :
  validObjectId pid = true ->
  find_post pid (posts d) = Some p ->
  ~ In uid (map like_user (likes p)) ->
  run (likePost uid pid) d =
    (inr tt,
     mkHState
       (mkStore (users d)
                (save_post (set_likes p (mkLike uid :: likes p)) (posts d)))
       (mkRes 200 (Some (BJson (json_of_likes (mkLike uid :: likes p))))) []).
Proof.
  intros Hv Hp Hin. unfold likePost, likePost_try. run_handler. rewrite Hv. simpl. rewrite Hp. simpl.
  apply filter_is_user_nil in Hin. rewrite Hin. reflexivity.
Qed.

(** C4: on a stored post, [likePost] answers 400 "Post already liked" and
    changes nothing when the user is in the like list; otherwise it puts a
    new like for the user at the front of the list, saves the post and
    answers with the new list.  Liking a post without likes twice as the
    same user: the second call answers 400 and the list has one entry. *)
Theorem likePost_guard_and_prepend (d : Store) (uid pid : string) (p : Post) :
  validObjectId pid = true ->
  find_post pid (posts d) = Some p ->
  (In uid (map like_user (likes p)) ->
     response_of (likePost uid pid) d = already_liked /\
     store_after (likePost uid pid) d = d) /\
  (~ In uid (map like_user (likes p)) ->
     let p' := set_likes p (mkLike uid :: likes p) in
     response_of (likePost uid pid) d =
       mkRes 200 (Some (BJson (json_of_likes (mkLike uid :: likes p)))) /\
     store_after (likePost uid pid) d =
       mkStore (users d) (save_post p' (posts d)) /\
     find_post pid (posts (store_after (likePost uid pid) d)) = Some p') /\
  (likes p = [] ->
     let d1 := store_after (likePost uid pid) d in
     let d2 := store_after (likePost uid pid) d1 in
     response_of (likePost uid pid) d1 = already_liked /\
     exists p2, find_post pid (posts d2) = Some p2 /\
                likes p2 = [mkLike uid] /\ length (likes p2) = 1).
Proof.
  intros Hv Hp.
  assert (Hid : post_id p = pid) by (eapply find_post_id; eassumption).
  assert (Hfresh : ~ In uid (map like_user (likes p)) ->
            find_post pid
              (save_post (set_likes p (mkLike uid :: likes p)) (posts d))
            = Some (set_likes p (mkLike uid :: likes p))).
  { intros _. rewrite <- Hid.
    change (post_id p) with (post_id (set_likes p (mkLike uid :: likes p))).
    eapply find_post_save. simpl. rewrite Hid. exact Hp. }
  split; [|split].
  - intros Hin. unfold response_of, store_after.
    rewrite (likePost_present d uid pid p Hv Hp Hin). now split.
  - intros Hin p'. unfold response_of, store_after.
    rewrite (likePost_absent d uid pid p Hv Hp Hin). simpl.
    repeat split. now apply Hfresh.
  - intros Hnil d1 d2.
    assert (Hin : ~ In uid (map like_user (likes p))) by (rewrite Hnil; intros []).
    assert (Hd1 : d1 = mkStore (users d)
              (save_post (set_likes p [mkLike uid]) (posts d))).
    { unfold d1, store_after. rewrite (likePost_absent d uid pid p Hv Hp Hin).
      simpl. now rewrite Hnil. }
    assert (Hp1 : find_post pid (posts d1) = Some (set_likes p [mkLike uid])).
    { rewrite Hd1. simpl. specialize (Hfresh Hin). now rewrite Hnil in Hfresh. }
    assert (Hin1 : In uid (map like_user (likes (set_likes p [mkLike uid]))))
      by (simpl; now left).
    unfold d2, response_of, store_after.
    rewrite (likePost_present d1 uid pid _ Hv Hp1 Hin1). simpl.
    split; [reflexivity|]. exists (set_likes p [mkLike uid]). now repeat split.
Qed.

Lemma in_likes_split (uid : string) (ls : list Like) :
  In uid (map like_user ls) ->
  exists l1 l2, ls = l1 ++ mkLike uid :: l2 /\ ~ In uid (map like_user l1) /\
                indexOf uid (map like_user ls) = Z.of_nat (length l1).
Proof.
  intros Hin. destruct (indexOf_first _ _ Hin) as (m1 & m2 & Hm & Hn & Hi).
  apply map_eq_app in Hm as (l1 & r & -> & <- & Hr).
  apply map_eq_cons in Hr as ([u] & l2 & -> & Hu & _). simpl in Hu. subst u.
  exists l1, l2. rewrite Hi. rewrite length_map. now repeat split.
Qed.

Lemma unlikePost_absent (d : Store) (uid pid : string) (p : Post) :
  validObjectId pid = true ->
  find_post pid (posts d) = Some p ->
  ~ In uid (map like_user (likes p)) ->
  run (unlikePost uid pid) d = (inr tt, mkHState d not_yet_liked []).
Proof.
  intros Hv Hp Hin. unfold unlikePost, unlikePost_try. run_handler.
  rewrite Hv. simpl. rewrite Hp. simpl.
  apply filter_is_user_nil in Hin. now rewrite Hin.
Qed.

Lemma unlikePost_present (d : Store) (uid pid : string) (p : Post)
      (l1 l2 : list Like) :
  validObjectId pid = true ->
  find_post pid (posts d) = Some p ->
  likes p = l1 ++ mkLike uid :: l2 ->
  indexOf uid (map like_user (likes p)) = Z.of_nat (length l1) ->
  run (unlikePost uid pid) d =
    (inr tt,
     mkHState
       (mkStore (users d) (save_post (set_likes p (l1 ++ l2)) (posts d)))
       (mkRes 200 (Some (BJson (json_of_likes (l1 ++ l2))))) []).
Proof.
  intros Hv Hp Hl Hi. unfold unlikePost, unlikePost_try. run_handler.
  rewrite Hv. simpl. rewrite Hp. simpl.
  destruct (length (List.filter (is_user uid) (likes p))) eqn:E; simpl.
  - apply filter_is_user_nil in E. exfalso. apply E. rewrite Hl, map_app.
    apply in_or_app. right. now left.
  - rewrite Hi, Hl, splice1_middle. reflexivity.
Qed.

(** C5: on a stored post, [unlikePost] answers 400 "Post has not yet been
    liked" and changes nothing when the user is not in the like list;
    when the user is in it, the entry at the first index holding the user
    is cut out, every other entry stays in its place, the post is saved
    and the answer is the new list. *)
Theorem unlikePost_guard_and_excise (d : Store) (uid pid : string) (p : Post) :
  validObjectId pid = true ->
  find_post pid (posts d) = Some p ->
  (~ In uid (map like_user (likes p)) ->
     response_of (unlikePost uid pid) d = not_yet_liked /\
     store_after (unlikePost uid pid) d = d) /\
  (In uid (map like_user (likes p)) ->
     exists l1 l2,
       likes p = l1 ++ mkLike uid :: l2 /\
       ~ In uid (map like_user l1) /\
       indexOf uid (map like_user (likes p)) = Z.of_nat (length l1) /\
       response_of (unlikePost uid pid) d =
         mkRes 200 (Some (BJson (json_of_likes (l1 ++ l2)))) /\
       store_after (unlikePost uid pid) d =
         mkStore (users d) (save_post (set_likes p (l1 ++ l2)) (posts d)) /\
       find_post pid (posts (store_after (unlikePost uid pid) d)) =
         Some (set_likes p (l1 ++ l2))).
Proof.
  intros Hv Hp. split.
  - intros Hin. unfold response_of, store_after.
    rewrite (unlikePost_absent d uid pid p Hv Hp Hin). now split.
  - intros Hin. destruct (in_likes_split _ _ Hin) as (l1 & l2 & Hl & Hn & Hi).
    exists l1, l2. unfold response_of, store_after.
    rewrite (unlikePost_present d uid pid p l1 l2 Hv Hp Hl Hi). simpl.
    repeat split; try assumption.
    assert (Hid : post_id p = pid) by (eapply find_post_id; eassumption).
    rewrite <- Hid. change (post_id p) with (post_id (set_likes p (l1 ++ l2))).
    eapply find_post_save. simpl. rewrite Hid. exact Hp.
Qed.

(** C9: a like or unlike request for a well-formed identifier that matches
    no stored post: the try block reads [likes] of [null] and raises a
    TypeError, the empty catch block swallows it, and the request ends
    with no response sent (neither a 404 nor anything else), nothing
    logged and the store as it was. *)
Theorem like_unlike_missing_post_no_response (d : Store) (uid pid : string) :
  validObjectId pid = true ->
  find_post pid (posts d) = None ->
  (fst (run (likePost_try uid pid) d) =
     inl (TypeError "Cannot read property 'likes' of null") /\
   run (likePost uid pid) d = (inr tt, mkHState d fresh_res []) /\
   body (response_of (likePost uid pid) d) = None) /\
  (fst (run (unlikePost_try uid pid) d) =
     inl (TypeError "Cannot read property 'likes' of null") /\
   run (unlikePost uid pid) d = (inr tt, mkHState d fresh_res []) /\
   body (response_of (unlikePost uid pid) d) = None).
Proof.
  intros Hv Hp.
  split; unfold likePost, likePost_try, unlikePost, unlikePost_try;
    run_handler; rewrite Hv; simpl; rewrite Hp; simpl; now repeat split.
Qed.

(** ** Error handling *)

(** C3: with a malformed post identifier the store lookup raises a cast
    error.  The route that reads a post logs it and answers 404, as the
    claim says; the like and unlike routes catch it in an empty block: no
    response is sent and nothing is logged. *)
Theorem like_unlike_swallow_cast_error (d : Store) (uid pid : string) :
  validObjectId pid = false ->
  (response_of (getPost pid) d = invalid_post_id /\
   console_of (getPost pid) d = [json_msg (cast_message pid)]) /\
  (fst (run (likePost_try uid pid) d) = inl (CastError (cast_message pid)) /\
   response_of (likePost uid pid) d = fresh_res /\
   console_of (likePost uid pid) d = []) /\
  (fst (run (unlikePost_try uid pid) d) = inl (CastError (cast_message pid)) /\
   response_of (unlikePost uid pid) d = fresh_res /\
   console_of (unlikePost uid pid) d = []).
Proof.
  intros Hv.
  repeat split;
    unfold getPost, catch_object_id, likePost, likePost_try, unlikePost,
      unlikePost_try; run_handler; rewrite Hv; reflexivity.
Qed.

(** C2: deleting a stored post as somebody other than its author leaves
    the store as it was, but the answer is not a 401: the status is set to
    401, the call of the missing [res] method raises a TypeError, and the
    catch block logs it and answers 500 "Server Error". *)
Theorem deletePost_non_author_answers_500 (d : Store) (uid pid : string) (p : Post) :
  validObjectId pid = true ->
  find_post pid (posts d) = Some p ->
  post_user p <> uid ->
  response_of (deletePost uid pid) d = server_error /\
  statusCode (response_of (deletePost uid pid) d) <> 401 /\
  console_of (deletePost uid pid) d =
    [json_msg "res.status(...).res is not a function"] /\
  store_after (deletePost uid pid) d = d.
Proof.
  intros Hv Hp Hne. unfold deletePost, catch_object_id. run_handler.
  rewrite Hv. simpl. rewrite Hp. simpl.
  destruct (String.eqb_spec (post_user p) uid) as [E|E]; [contradiction|].
  simpl. repeat split. discriminate.
Qed.

(** The comment route answers a requester who is not the author with 401
    and leaves the store as it was. *)
Lemma deleteComment_non_author_answers_401
      (d : Store) (uid pid cid : string) (p : Post) (c : Comment) :
  validObjectId pid = true ->
  find_post pid (posts d) = Some p ->
  find (fun c => String.eqb (comment_id c) cid) (comments p) = Some c ->
  comment_user c <> uid ->
  run (deleteComment uid pid cid) d = (inr tt, mkHState d user_not_authorized []).
Proof.
  intros Hv Hp Hc Hne. unfold deleteComment. run_handler.
  rewrite Hv. simpl. rewrite Hp. simpl. rewrite Hc.
  destruct (String.eqb_spec (comment_user c) uid) as [E|E]; [contradiction|].
  reflexivity.
Qed.

(** X26: what [deleteComment] removes on success is the first comment
    written by the requester, whichever comment the identifier names;
    every other comment stays in its place and the answer is the new
    list. *)
Lemma deleteComment_removes_first_by_author
      (d : Store) (uid pid cid : string) (p : Post) (c : Comment) :
  validObjectId pid = true ->
  find_post pid (posts d) = Some p ->
  find (fun c => String.eqb (comment_id c) cid) (comments p) = Some c ->
  comment_user c = uid ->
  exists l1 c1 l2,
    comments p = l1 ++ c1 :: l2 /\
    comment_user c1 = uid /\
    ~ In uid (map comment_user l1) /\
    response_of (deleteComment uid pid cid) d =
      mkRes 200 (Some (BJson (json_of_comments (l1 ++ l2)))) /\
    store_after (deleteComment uid pid cid) d =
      mkStore (users d) (save_post (set_comments p (l1 ++ l2)) (posts d)).
Proof.
  intros Hv Hp Hc Hu.
  assert (Hin : In uid (map comment_user (comments p))).
  { apply find_some in Hc as [Hc _]. rewrite <- Hu. now apply in_map. }
  destruct (indexOf_first _ _ Hin) as (m1 & m2 & Hm & Hn & Hi).
  apply map_eq_app in Hm as (l1 & r & Hl & <- & Hr).
  apply map_eq_cons in Hr as (c1 & l2 & -> & Hu1 & _).
  exists l1, c1, l2. repeat split; try assumption.
  - unfold deleteComment. run_handler. rewrite Hv. simpl. rewrite Hp. simpl.
    rewrite Hc, Hu, String.eqb_refl. simpl.
    rewrite Hi, Hl, length_map, splice1_middle. reflexivity.
  - unfold deleteComment. run_handler. rewrite Hv. simpl. rewrite Hp. simpl.
    rewrite Hc, Hu, String.eqb_refl. simpl.
    rewrite Hi, Hl, length_map, splice1_middle. reflexivity.
Qed.

(** ** Registration *)

Lemma register_errors_nil (name email password : string) :
  register_errors name email password = [] <->
  valid_registration name email password = true.
Proof.
  unfold register_errors, valid_registration, check.
  destruct (negb (isEmpty name)), (isEmail email), (isLength_min 6 password);
    simpl; split; intros H; try reflexivity; discriminate.
Qed.

Lemma invalid_input_not_valid (name email password : string) :
  String.length password < 6 \/ name = "" \/ isEmail email = false ->
  valid_registration name email password = false.
Proof.
  unfold valid_registration, isLength_min, isEmpty.
  intros [H|[H|H]].
  - apply Nat.leb_gt in H. rewrite H. now rewrite andb_false_r.
  - subst name. reflexivity.
  - rewrite H. now rewrite andb_false_r.
Qed.

Lemma register_valid_absent (d : Store) (env : Env) (name email password : string) :
  valid_registration name email password = true ->
  find_email email (users d) = None ->
  find_user (env_oid env) (users d) = None ->
  store_after (register env name email password) d =
    mkStore (users d ++ [registered_user env name email password]) (posts d) /\
  response_of (register env name email password) d =
    match jwt_sign (jwt_payload (env_oid env)) jwtSecret 360000%Z with
    | Some token => mkRes 200 (Some (BJson (JObj [("token", JStr token)])))
    | None => fresh_res
    end.
Proof.
  intros Hv He Hf. apply register_errors_nil in Hv.
  unfold register. rewrite Hv. run_handler. rewrite He. simpl.
  unfold insert_user. simpl. rewrite Hf. simpl.
  destruct (jwt_sign _ _ _); simpl; now split.
Qed.

Lemma register_valid_present (d : Store) (env : Env)
      (name email password : string) (u : User) :
  valid_registration name email password = true ->
  find_email email (users d) = Some u ->
  run (register env name email password) d =
    (inr tt, mkHState d duplicate_email []).
Proof.
  intros Hv He. apply register_errors_nil in Hv.
  unfold register. rewrite Hv. run_handler. now rewrite He.
Qed.

Lemma users_with_email_none (email : string) (us : list User) :
  find_email email us = None ->
  List.filter (fun u => String.eqb (user_email u) email) us = [].
Proof.
  unfold find_email. induction us as [|u us IH]; simpl; [reflexivity|].
  destruct (String.eqb (user_email u) email); [discriminate|exact IH].
Qed.

Lemma find_email_app_new (email : string) (us : list User) (u : User) :
  find_email email us = None -> user_email u = email ->
  find_email email (us ++ [u]) = Some u.
Proof.
  unfold find_email. intros H E. induction us as [|v vs IH]; simpl in *.
  - now rewrite E, String.eqb_refl.
  - destruct (String.eqb (user_email v) email); [discriminate|now apply IH].
Qed.

(** C6: a registration with an email that a stored user has answers 400
    "User already exists" and leaves the store as it was.  Registering
    twice with the same email, on a store where the email is new and the
    first document gets an unused identifier: the second request gets that
    answer and one user with the email is stored. *)
Theorem register_duplicate_email (d : Store) (env : Env)
        (name email password : string) :
  valid_registration name email password = true ->
  (forall u, find_email email (users d) = Some u ->
     response_of (register env name email password) d = duplicate_email /\
     store_after (register env name email password) d = d) /\
  (forall env0 name0 password0,
     valid_registration name0 email password0 = true ->
     find_email email (users d) = None ->
     find_user (env_oid env0) (users d) = None ->
     let d1 := store_after (register env0 name0 email password0) d in
     let d2 := store_after (register env name email password) d1 in
     response_of (register env name email password) d1 = duplicate_email /\
     d2 = d1 /\
     users_with_email email d2 = [registered_user env0 name0 email password0] /\
     length (users_with_email email d2) = 1).
Proof.
  intros Hv. split.
  - intros u He. unfold response_of, store_after.
    rewrite (register_valid_present d env name email password u Hv He).
    now split.
  - intros env0 name0 password0 Hv0 He Hf d1 d2.
    destruct (register_valid_absent d env0 name0 email password0 Hv0 He Hf)
      as [Hd1 _].
    fold d1 in Hd1.
    assert (He1 : find_email email (users d1) =
                  Some (registered_user env0 name0 email password0)).
    { rewrite Hd1. simpl. now apply find_email_app_new. }
    assert (Hd2 : d2 = d1).
    { unfold d2, store_after.
      now rewrite (register_valid_present d1 env name email password _ Hv He1). }
    assert (Hl : users_with_email email d2 =
                 [registered_user env0 name0 email password0]).
    { rewrite Hd2, Hd1. unfold users_with_email. simpl.
      rewrite List.filter_app, (users_with_email_none _ _ He). simpl.
      now rewrite String.eqb_refl. }
    repeat split; try assumption.
    + unfold response_of.
      now rewrite (register_valid_present d1 env name email password _ Hv He1).
    + now rewrite Hl.
Qed.

(** C10: a registration whose password has fewer than 6 characters, whose
    name is empty or whose email the validator rejects answers 400 with
    the list of failed checks; the answer is the same whatever the store
    holds, and the store is left as it was, so no user is created. *)
Theorem register_rejects_invalid_input (d : Store) (env : Env)
        (name email password : string) :
  String.length password < 6 \/ name = "" \/ isEmail email = false ->
  exists errors,
    errors <> [] /\
    errors = register_errors name email password /\
    (forall d', response_of (register env name email password) d' =
                mkRes 400 (Some (BJson (json_of_errors errors)))) /\
    store_after (register env name email password) d = d /\
    users (store_after (register env name email password) d) = users d.
Proof.
  intros H. apply invalid_input_not_valid in H.
  exists (register_errors name email password).
  assert (Hne : register_errors name email password <> []).
  { intros F. apply register_errors_nil in F. congruence. }
  split; [exact Hne|]. split; [reflexivity|].
  unfold register, response_of, store_after.
  destruct (register_errors name email password) as [|e es]; [contradiction|].
  run_handler. repeat split.
Qed.

(** ** What a response holds *)

Lemma has_key_likes (ls : list Like) :
  has_key "password" (json_of_likes ls) = false.
Proof.
  unfold json_of_likes. simpl.
  induction ls as [|l ls IH]; simpl; [reflexivity|exact IH].
Qed.

Lemma has_key_comments (cs : list Comment) :
  has_key "password" (json_of_comments cs) = false.
Proof.
  unfold json_of_comments. simpl.
  induction cs as [|c cs IH]; simpl; [reflexivity|exact IH].
Qed.

Lemma has_key_post (p : Post) : has_key "password" (json_of_post p) = false.
Proof.
  unfold json_of_post.
  change (has_key "password" (json_of_likes (likes p))
          || (has_key "password" (json_of_comments (comments p)) || false)
          = false).
  now rewrite has_key_likes, has_key_comments.
Qed.

Lemma has_key_posts (ps : list Post) :
  has_key "password" (JArr (map json_of_post ps)) = false.
Proof.
  simpl. induction ps as [|p ps IH]; [reflexivity|].
  change (has_key "password" (json_of_post p)
          || existsb (has_key "password") (map json_of_post ps) = false).
  now rewrite has_key_post, IH.
Qed.

Lemma has_key_errors (es : list ValidationError) :
  has_key "password" (json_of_errors es) = false.
Proof.
  unfold json_of_errors. simpl.
  induction es as [|e es IH]; simpl; [reflexivity|].
  destruct (existsb (has_key "password") (map json_of_verr es)); [discriminate|].
  reflexivity.
Qed.

Lemma route_body_no_password (r : Res) : route_body (body r) -> no_password r = true.
Proof.
  unfold no_password. intros H. inversion H; try reflexivity.
  - now rewrite has_key_errors.
  - now rewrite has_key_post.
  - now rewrite has_key_posts.
  - now rewrite has_key_likes.
  - now rewrite has_key_comments.
Qed.

(** Case analysis on what a route reads from the store and its helpers. *)
Ltac split_cases :=
  repeat (simpl;
    match goal with
    | |- context [validObjectId ?x] => destruct (validObjectId x) eqn:?
    | |- context [isEmpty ?x] => destruct (isEmpty x) eqn:?
    | |- context [find_post ?a ?b] => destruct (find_post a b) eqn:?
    | |- context [find_user ?a ?b] => destruct (find_user a b) eqn:?
    | |- context [find_email ?a ?b] => destruct (find_email a b) eqn:?
    | |- context [insert_post ?a ?b] => unfold insert_post
    | |- context [insert_user ?a ?b] => unfold insert_user
    | |- context [jwt_sign ?a ?b ?c] => destruct (jwt_sign a b c) eqn:?
    | |- context [find ?f ?l] => destruct (find f l) eqn:?
    | |- context [String.eqb ?a ?b] => destruct (String.eqb a b) eqn:?
    | |- context [List.filter (is_user ?u) ?l] =>
        destruct (length (List.filter (is_user u) l)) eqn:?
    end); simpl.

Lemma handle_route_body (d : Store) (env : Env) (r : Request) :
  route_body (body (response_of (handle env r) d)).
Proof.
  destruct r; simpl.
  - unfold register.
    destruct (register_errors name email password) as [|e es];
      run_handler; split_cases; constructor.
  - unfold createPost, check; run_handler; split_cases; constructor.
  - unfold listPosts; run_handler; constructor.
  - unfold getPost, catch_object_id; run_handler; split_cases; constructor.
  - unfold deletePost, catch_object_id; run_handler; split_cases; constructor.
  - unfold likePost, likePost_try; run_handler; split_cases; constructor.
  - unfold unlikePost, unlikePost_try; run_handler; split_cases; constructor.
  - unfold addComment, check; run_handler; split_cases; constructor.
  - unfold deleteComment; run_handler; split_cases; constructor.
Qed.

(** C8: a registration that goes through stores the user with
    [bcrypt.hash(password, salt)] as its password, the salt being the one
    drawn for this request; the signed payload holds the identifier only;
    the user a route reads for a post or a comment comes without its
    password; and no response of any route has a member named
    [password]. *)
Theorem password_hashed_never_serialised
        (d : Store) (env : Env) (name email password : string) :
  valid_registration name email password = true ->
  find_email email (users d) = None ->
  find_user (env_oid env) (users d) = None ->
  (exists u,
     users (store_after (register env name email password) d) = users d ++ [u] /\
     user_email u = email /\
     user_password u = Some (bcrypt_hash password (env_salt env))) /\
  has_key "password" (jwt_payload (env_oid env)) = false /\
  (forall d' uid u,
     fst (User_findById_no_password uid (mkHState d' fresh_res [])) = inr (Some u) ->
     user_password u = None) /\
  (forall d' env' r, no_password (response_of (handle env' r) d') = true).
Proof.
  intros Hv He Hf. repeat split.
  - exists (registered_user env name email password).
    destruct (register_valid_absent d env name email password Hv He Hf) as [-> _].
    now repeat split.
  - intros d' uid u. run_handler.
    destruct (validObjectId uid); simpl; [|discriminate].
    destruct (find_user uid (users d')); simpl; [|discriminate].
    intros [= <-]. reflexivity.
  - intros d' env' r. apply route_body_no_password, handle_route_body.
Qed.

(** ** The like list holds a user once *)

Lemma in_delete {A} (x : A) (n : nat) (l : list A) : In x (delete n l) -> In x l.
Proof.
  revert n. induction l as [|a l IH]; intros [|n]; simpl; auto.
  intros [H|H]; [now left|right; eauto].
Qed.

Lemma NoDup_map_delete {A B} (f : A -> B) (n : nat) (l : list A) :
  List.NoDup (map f l) -> List.NoDup (map f (delete n l)).
Proof.
  revert n. induction l as [|a l IH]; intros [|n]; simpl; intros H; auto.
  - now inversion H.
  - inversion H as [|? ? Hn Hd]; subst. constructor; [|now apply IH].
    intros F. apply Hn. apply in_map_iff in F as (y & <- & Hy).
    apply in_map. eapply in_delete. exact Hy.
Qed.

Lemma NoDup_map_splice1 {A B} (f : A -> B) (i : Z) (l : list A) :
  List.NoDup (map f l) -> List.NoDup (map f (splice1 i l)).
Proof. unfold splice1. apply NoDup_map_delete. Qed.

Lemma find_post_In (pid : string) (ps : list Post) (p : Post) :
  find_post pid ps = Some p -> In p ps.
Proof. unfold find_post. intros H. now apply find_some in H as [H _]. Qed.

Lemma Forall_save_post (P : Post -> Prop) (p : Post) (ps : list Post) :
  Forall P ps -> P p -> Forall P (save_post p ps).
Proof.
  intros H Hp. unfold save_post. induction H as [|q qs Hq _ IH]; simpl.
  - constructor.
  - constructor; [|exact IH]. now destruct (String.eqb (post_id q) (post_id p)).
Qed.

Lemma Forall_remove_post (P : Post -> Prop) (p : Post) (ps : list Post) :
  Forall P ps -> Forall P (remove_post p ps).
Proof.
  intros H. unfold remove_post. induction H as [|q qs Hq _ IH]; simpl.
  - constructor.
  - destruct (negb (String.eqb (post_id q) (post_id p))); [now constructor|exact IH].
Qed.

Lemma likes_unique_found (d : Store) (pid : string) (p : Post) :
  likes_unique d -> find_post pid (posts d) = Some p ->
  List.NoDup (map like_user (likes p)).
Proof.
  intros H Hp. apply find_post_In in Hp.
  unfold likes_unique in H. rewrite List.Forall_forall in H. now apply H.
Qed.

(** Closes the invariant on the store a route leaves behind. *)
Ltac unique_goal Hd :=
  unfold likes_unique in *; simpl;
  first
    [ exact Hd
    | apply Forall_remove_post; exact Hd
    | apply Forall_app; split; [exact Hd | repeat constructor]
    | apply Forall_save_post; [exact Hd | simpl;
        first
          [ eapply likes_unique_found; eassumption
          | apply NoDup_map_splice1; eapply likes_unique_found; eassumption
          | constructor;
            [ apply filter_is_user_nil; assumption
            | eapply likes_unique_found; eassumption ] ] ] ].

Lemma handle_preserves_likes_unique (d : Store) (env : Env) (r : Request) :
  likes_unique d -> likes_unique (store_after (handle env r) d).
Proof.
  intros Hd. destruct r; simpl.
  - unfold register.
    destruct (register_errors name email password) as [|e es];
      run_handler; split_cases; unique_goal Hd.
  - unfold createPost, check; run_handler; split_cases; unique_goal Hd.
  - unfold listPosts; run_handler; unique_goal Hd.
  - unfold getPost, catch_object_id; run_handler; split_cases; unique_goal Hd.
  - unfold deletePost, catch_object_id; run_handler; split_cases; unique_goal Hd.
  - unfold likePost, likePost_try; run_handler; split_cases; unique_goal Hd.
  - unfold unlikePost, unlikePost_try; run_handler; split_cases; unique_goal Hd.
  - unfold addComment, check; run_handler; split_cases; unique_goal Hd.
  - unfold deleteComment; run_handler; split_cases; unique_goal Hd.
Qed.

Lemma serve_likes_unique (trace : list (Env * Request)) (d : Store) :
  likes_unique d -> likes_unique (serve trace d).
Proof.
  revert d. induction trace as [|[env r] trace IH]; intros d Hd; simpl.
  - exact Hd.
  - apply IH. now apply handle_preserves_likes_unique.
Qed.

Corollary reachable_likes_unique (trace : list (Env * Request)) :
  likes_unique (serve trace empty_store).
Proof. apply serve_likes_unique. constructor. Qed.

(** C7: on a store whose like lists hold no user twice, every request
    leaves such a store, and so does every sequence of requests; every
    store reached from the empty one has the property.  Requests are
    served one after the other, each to its end. *)
Theorem likes_unique_invariant (d : Store) :
  likes_unique d ->
  (forall env r, likes_unique (store_after (handle env r) d)) /\
  (forall trace, likes_unique (serve trace d)) /\
  (forall trace, likes_unique (serve trace empty_store)).
Proof.
  intros Hd. repeat split.
  - intros env r. now apply handle_preserves_likes_unique.
  - intros trace. now apply serve_likes_unique.
  - apply reachable_likes_unique.
Qed.

(** ** Reading and deleting posts *)

Lemma getPost_run (d : Store) (pid : string) :
  run (getPost pid) d =
    (inr tt,
     mkHState d
       (if validObjectId pid then
          match find_post pid (posts d) with
          | Some p => ok_json (json_of_post p)
          | None => post_not_found
          end
        else invalid_post_id)
       (if validObjectId pid then [] else [json_msg (cast_message pid)])).
Proof.
  unfold getPost, catch_object_id. run_handler.
  destruct (validObjectId pid); simpl; [|reflexivity].
  destruct (find_post pid (posts d)); reflexivity.
Qed.

(** X1: reading a post never changes the store and always answers: 200
    with the stored post, 404 "Post not found" for a well-formed
    identifier that matches nothing, 404 "Invalid post id" (and a log
    line) for a malformed one. *)
Theorem getPost_answers (d : Store) (pid : string) :
  store_after (getPost pid) d = d /\
  response_of (getPost pid) d =
    (if validObjectId pid then
       match find_post pid (posts d) with
       | Some p => ok_json (json_of_post p)
       | None => post_not_found
       end
     else invalid_post_id) /\
  console_of (getPost pid) d =
    (if validObjectId pid then [] else [json_msg (cast_message pid)]).
Proof.
  unfold store_after, response_of, console_of. rewrite getPost_run.
  now repeat split.
Qed.

Lemma insert_by_date_perm (p : Post) (ps : list Post) :
  Permutation (insert_by_date p ps) (p :: ps).
Proof.
  induction ps as [|q qs IH]; simpl; [reflexivity|].
  destruct (Nat.leb (post_date q) (post_date p)); [reflexivity|].
  rewrite IH. apply perm_swap.
Qed.

Lemma insert_by_date_sorted (p : Post) (ps : list Post) :
  StronglySorted newer_first ps -> StronglySorted newer_first (insert_by_date p ps).
Proof.
  induction 1 as [|q qs Hs IH Hq]; simpl.
  - repeat constructor.
  - destruct (Nat.leb_spec (post_date q) (post_date p)) as [L|L].
    + constructor; [now constructor|]. constructor; [exact L|].
      eapply List.Forall_impl; [|exact Hq]. unfold newer_first. intros r Hr.
      simpl in Hr. lia.
    + constructor; [exact IH|].
      rewrite insert_by_date_perm. constructor; [|exact Hq].
      unfold newer_first. lia.
Qed.

Lemma sort_date_desc_perm (ps : list Post) : Permutation (sort_date_desc ps) ps.
Proof.
  induction ps as [|p ps IH]; simpl; [reflexivity|].
  rewrite insert_by_date_perm. now constructor.
Qed.

Lemma sort_date_desc_sorted (ps : list Post) :
  StronglySorted newer_first (sort_date_desc ps).
Proof.
  induction ps as [|p ps IH]; simpl; [constructor|].
  now apply insert_by_date_sorted.
Qed.

(** X2: the list route leaves the store as it is and answers 200 with
    every stored post, each once, newest first. *)
Theorem listPosts_newest_first (d : Store) :
  store_after listPosts d = d /\
  exists ps,
    response_of listPosts d = ok_json (JArr (map json_of_post ps)) /\
    Permutation ps (posts d) /\
    StronglySorted newer_first ps.
Proof.
  split; [reflexivity|]. exists (sort_date_desc (posts d)).
  split; [reflexivity|]. split.
  - apply sort_date_desc_perm.
  - apply sort_date_desc_sorted.
Qed.

Lemma find_post_none_iff (pid : string) (ps : list Post) :
  find_post pid ps = None <-> ~ In pid (map post_id ps).
Proof.
  unfold find_post. induction ps as [|q qs IH]; simpl.
  - split; [intros _ []|reflexivity].
  - destruct (String.eqb_spec (post_id q) pid) as [E|E].
    + split; [discriminate|]. intros H. exfalso. apply H. now left.
    + rewrite IH. split.
      * intros H [F|F]; [now apply E|now apply H].
      * intros H F. apply H. now right.
Qed.

Lemma remove_post_In (p q : Post) (ps : list Post) :
  In q (remove_post p ps) <-> In q ps /\ post_id q <> post_id p.
Proof.
  unfold remove_post. rewrite filter_In.
  destruct (String.eqb_spec (post_id q) (post_id p)) as [E|E]; simpl.
  - split; [intros [_ F]; discriminate|]. intros [_ F]. contradiction.
  - split; intros [H _]; now split.
Qed.

Lemma deletePost_author_run (d : Store) (uid pid : string) (p : Post) :
  validObjectId pid = true ->
  find_post pid (posts d) = Some p ->
  post_user p = uid ->
  run (deletePost uid pid) d =
    (inr tt,
     mkHState (mkStore (users d) (remove_post p (posts d))) post_removed []).
Proof.
  intros Hv Hp Hu. unfold deletePost, catch_object_id. run_handler.
  rewrite Hv. simpl. rewrite Hp. simpl. rewrite Hu, String.eqb_refl.
  reflexivity.
Qed.

(** X3: the author deletes a stored post: the answer is 200 "Post
    removed", the users are untouched, the posts left are the ones with
    another identifier, and reading the identifier afterwards gives 404
    "Post not found". *)
Theorem deletePost_by_author (d : Store) (uid pid : string) (p : Post) :
  validObjectId pid = true ->
  find_post pid (posts d) = Some p ->
  post_user p = uid ->
  let d' := store_after (deletePost uid pid) d in
  response_of (deletePost uid pid) d = post_removed /\
  users d' = users d /\
  (forall q, In q (posts d') <-> In q (posts d) /\ post_id q <> pid) /\
  find_post pid (posts d') = None /\
  response_of (getPost pid) d' = post_not_found.
Proof.
  intros Hv Hp Hu d'.
  assert (Hid : post_id p = pid) by (eapply find_post_id; eassumption).
  assert (Hd : d' = mkStore (users d) (remove_post p (posts d))).
  { unfold d', store_after. now rewrite (deletePost_author_run d uid pid p). }
  assert (Hr : response_of (deletePost uid pid) d = post_removed).
  { unfold response_of. now rewrite (deletePost_author_run d uid pid p). }
  clearbody d'. subst d'. simpl.
  assert (Hnone : find_post pid (remove_post p (posts d)) = None).
  { apply find_post_none_iff. intros F.
    apply in_map_iff in F as (q & Hq & F). apply remove_post_In in F as [_ F].
    congruence. }
  split; [exact Hr|]. split; [reflexivity|]. split; [|split].
  - intros q. rewrite remove_post_In, Hid. reflexivity.
  - exact Hnone.
  - unfold response_of. rewrite getPost_run. simpl. now rewrite Hv, Hnone.
Qed.

(** X4: deleting with a malformed identifier, or a well-formed one that
    matches no post, answers 404 and leaves the store as it was. *)
Theorem deletePost_no_post (d : Store) (uid pid : string) :
  validObjectId pid = false \/ find_post pid (posts d) = None ->
  store_after (deletePost uid pid) d = d /\
  response_of (deletePost uid pid) d =
    (if validObjectId pid then post_not_found else invalid_post_id) /\
  console_of (deletePost uid pid) d =
    (if validObjectId pid then [] else [json_msg (cast_message pid)]).
Proof.
  intros H. unfold deletePost, catch_object_id. run_handler.
  destruct (validObjectId pid); simpl; [|now repeat split].
  destruct H as [H|H]; [discriminate|]. rewrite H. now repeat split.
Qed.

(** X5: a post of somebody else survives every delete request: with
    identifiers not shared, whatever identifier [uid] asks to delete,
    every post written by another user is still stored afterwards. *)
Theorem deletePost_keeps_posts_of_others (d : Store) (uid pid : string) (q : Post) :
  post_ids_unique d ->
  In q (posts d) ->
  post_user q <> uid ->
  In q (posts (store_after (deletePost uid pid) d)).
Proof.
  intros Hu Hq Hne. unfold deletePost, catch_object_id. run_handler.
  destruct (validObjectId pid); simpl; [|exact Hq].
  destruct (find_post pid (posts d)) as [p|] eqn:Hp; simpl; [|exact Hq].
  destruct (String.eqb_spec (post_user p) uid) as [E|E]; simpl; [|exact Hq].
  apply remove_post_In. split; [exact Hq|]. intros F.
  assert (q = p); [|congruence].
  apply find_post_In in Hp. unfold post_ids_unique in Hu.
  clear - Hu Hq Hp F. induction (posts d) as [|r rs IH]; [contradiction|].
  simpl in Hu. inversion Hu as [|? ? Hn Hd]; subst.
  destruct Hq as [->|Hq], Hp as [->|Hp]; auto.
  - exfalso. apply Hn. rewrite F. now apply in_map.
  - exfalso. apply Hn. rewrite <- F. now apply in_map.
Qed.

(** ** Creating posts *)

Lemma isEmpty_false (s : string) : s <> "" -> isEmpty s = false.
Proof. destruct s; [contradiction|reflexivity]. Qed.

Lemma find_post_app (pid : string) (ps : list Post) (p : Post) :
  find_post pid (ps ++ [p]) =
    match find_post pid ps with
    | Some q => Some q
    | None => if String.eqb (post_id p) pid then Some p else None
    end.
Proof.
  unfold find_post. induction ps as [|q qs IH]; simpl; [reflexivity|].
  now destruct (String.eqb (post_id q) pid).
Qed.

Lemma createPost_run_ok (d : Store) (env : Env) (uid text : string) (u : User) :
  text <> "" ->
  validObjectId uid = true ->
  find_user uid (users d) = Some u ->
  find_post (env_oid env) (posts d) = None ->
  run (createPost env uid text) d =
    (inr tt,
     mkHState (mkStore (users d) (posts d ++ [new_post env uid text u]))
              (ok_json (json_of_post (new_post env uid text u))) []).
Proof.
  intros Ht Hv Hu Hf. unfold createPost, check.
  rewrite (isEmpty_false _ Ht). run_handler. rewrite Hv. simpl. rewrite Hu.
  simpl. unfold insert_post. simpl. rewrite Hf. reflexivity.
Qed.

(** X6: a post created by a stored user with a text: the answer is 200
    with the new post, which carries the user's name and avatar, the text,
    no like and no comment; the users are untouched, every post found
    before is found as before, and reading the new identifier returns the
    new post. *)
Theorem createPost_then_getPost (d : Store) (env : Env) (uid text : string) (u : User) :
  text <> "" ->
  validObjectId uid = true ->
  find_user uid (users d) = Some u ->
  validObjectId (env_oid env) = true ->
  find_post (env_oid env) (posts d) = None ->
  let d' := store_after (createPost env uid text) d in
  let p := new_post env uid text u in
  response_of (createPost env uid text) d = ok_json (json_of_post p) /\
  post_name p = user_name u /\ post_avatar p = user_avatar u /\
  users d' = users d /\
  posts d' = posts d ++ [p] /\
  (forall pid q, find_post pid (posts d) = Some q ->
                 find_post pid (posts d') = Some q) /\
  response_of (getPost (env_oid env)) d' = ok_json (json_of_post p).
Proof.
  intros Ht Hv Hu Hvo Hf d' p.
  pose proof (createPost_run_ok d env uid text u Ht Hv Hu Hf) as Hrun.
  assert (Hd : d' = mkStore (users d) (posts d ++ [p])).
  { unfold d', store_after. now rewrite Hrun. }
  assert (Hr : response_of (createPost env uid text) d = ok_json (json_of_post p)).
  { unfold response_of. now rewrite Hrun. }
  clearbody d'. subst d'. simpl.
  split; [exact Hr|]. repeat split.
  - intros pid q Hq. now rewrite find_post_app, Hq.
  - unfold response_of. rewrite getPost_run. simpl. rewrite Hvo.
    rewrite find_post_app, Hf. simpl. now rewrite String.eqb_refl.
Qed.

(** X7: a post without text is refused with 400 and the failed check,
    whatever the store holds; a post by a requester who is not stored (or
    whose identifier is malformed) ends in 500 "Server Error".  The store
    is left as it was in both cases. *)
Theorem createPost_refusals (d : Store) (env : Env) (uid text : string) :
  (text = "" ->
     response_of (createPost env uid text) d = validation_failed (text_required "") /\
     store_after (createPost env uid text) d = d) /\
  (text <> "" ->
   validObjectId uid = false \/ find_user uid (users d) = None ->
     response_of (createPost env uid text) d = server_error /\
     store_after (createPost env uid text) d = d /\
     length (console_of (createPost env uid text) d) = 1).
Proof.
  split.
  - intros ->. now split.
  - intros Ht H. unfold createPost, check. rewrite (isEmpty_false _ Ht).
    run_handler. destruct (validObjectId uid); simpl; [|now repeat split].
    destruct H as [H|H]; [discriminate|]. rewrite H. now repeat split.
Qed.

(** ** Comments *)

Lemma find_post_save_id (pid : string) (p p' : Post) (ps : list Post) :
  find_post pid ps = Some p -> post_id p' = pid ->
  find_post pid (save_post p' ps) = Some p'.
Proof.
  intros Hp Hid. subst pid. eapply find_post_save. exact Hp.
Qed.

Lemma find_post_save_other (pid : string) (p' : Post) (ps : list Post) :
  post_id p' <> pid ->
  find_post pid (save_post p' ps) = find_post pid ps.
Proof.
  intros Hne. unfold find_post, save_post.
  induction ps as [|q qs IH]; simpl; [reflexivity|].
  destruct (String.eqb_spec (post_id q) (post_id p')) as [E|E].
  - destruct (String.eqb_spec (post_id p') pid) as [F|F]; [contradiction|].
    destruct (String.eqb_spec (post_id q) pid) as [G|G]; [congruence|exact IH].
  - now rewrite IH.
Qed.

Lemma addComment_run_ok (d : Store) (env : Env) (uid pid text : string)
      (u : User) (p : Post) :
  text <> "" ->
  validObjectId uid = true ->
  find_user uid (users d) = Some u ->
  validObjectId pid = true ->
  find_post pid (posts d) = Some p ->
  run (addComment env uid pid text) d =
    (inr tt,
     mkHState
       (mkStore (users d)
          (save_post (set_comments p (new_comment env uid text u :: comments p))
                     (posts d)))
       (ok_json (json_of_comments (new_comment env uid text u :: comments p)))
       []).
Proof.
  intros Ht Hv Hu Hvp Hp. unfold addComment, check.
  rewrite (isEmpty_false _ Ht). run_handler. rewrite Hv. simpl. rewrite Hu.
  simpl. rewrite Hvp. simpl. rewrite Hp. reflexivity.
Qed.

(** X8: a comment with a text, by a stored user, on a stored post: the
    answer is 200 with the comment list, the new comment first and the
    old ones behind it in their order; the new comment carries the
    user's name and avatar; the post is saved with that list and
    everything else of it (its likes too) as before; other posts and the
    users are untouched. *)
Theorem addComment_prepends (d : Store) (env : Env) (uid pid text : string)
        (u : User) (p : Post) :
  text <> "" ->
  validObjectId uid = true ->
  find_user uid (users d) = Some u ->
  validObjectId pid = true ->
  find_post pid (posts d) = Some p ->
  let d' := store_after (addComment env uid pid text) d in
  let c := new_comment env uid text u in
  response_of (addComment env uid pid text) d =
    ok_json (json_of_comments (c :: comments p)) /\
  comment_name c = user_name u /\ comment_avatar c = user_avatar u /\
  comment_user c = uid /\
  users d' = users d /\
  find_post pid (posts d') = Some (set_comments p (c :: comments p)) /\
  likes (set_comments p (c :: comments p)) = likes p /\
  (forall pid', pid' <> pid ->
     find_post pid' (posts d') = find_post pid' (posts d)).
Proof.
  intros Ht Hv Hu Hvp Hp d' c.
  pose proof (addComment_run_ok d env uid pid text u p Ht Hv Hu Hvp Hp) as Hrun.
  assert (Hid : post_id p = pid) by (eapply find_post_id; eassumption).
  assert (Hr : response_of (addComment env uid pid text) d =
               ok_json (json_of_comments (c :: comments p))).
  { unfold response_of. now rewrite Hrun. }
  assert (Hd : d' = mkStore (users d)
                 (save_post (set_comments p (c :: comments p)) (posts d))).
  { unfold d', store_after. now rewrite Hrun. }
  clearbody d'. subst d'. simpl.
  split; [exact Hr|]. repeat split.
  - eapply find_post_save_id; eassumption.
  - intros pid' Hne. apply find_post_save_other. simpl. congruence.
Qed.

(** X9: a comment without text is refused with 400; a comment on a post
    that is not stored, or under a malformed post identifier, or by a
    requester who is not stored, ends in 500 "Server Error" (this route
    has no 404).  The store is left as it was. *)
Theorem addComment_refusals (d : Store) (env : Env) (uid pid text : string) :
  (text = "" ->
     response_of (addComment env uid pid text) d = validation_failed (text_required "") /\
     store_after (addComment env uid pid text) d = d) /\
  (text <> "" ->
   validObjectId uid = false \/ find_user uid (users d) = None \/
   validObjectId pid = false \/ find_post pid (posts d) = None ->
     response_of (addComment env uid pid text) d = server_error /\
     store_after (addComment env uid pid text) d = d /\
     length (console_of (addComment env uid pid text) d) = 1).
Proof.
  split.
  - intros ->. now split.
  - intros Ht H. unfold addComment, check. rewrite (isEmpty_false _ Ht).
    run_handler. destruct (validObjectId uid) eqn:Hv; simpl; [|now repeat split].
    destruct (validObjectId pid) eqn:Hvp; simpl; [|now repeat split].
    destruct (find_user uid (users d)) eqn:Hu; simpl; [|now repeat split].
    destruct (find_post pid (posts d)) eqn:Hp; simpl; [|now repeat split].
    destruct H as [H|[H|[H|H]]]; discriminate.
Qed.

(** X10: deleting a comment whose identifier is not on the stored post
    answers 404 "Comment does not exist"; deleting a comment written by
    somebody else answers 401 "User not authorized".  The store is left
    as it was. *)
Theorem deleteComment_refusals (d : Store) (uid pid cid : string) (p : Post) :
  validObjectId pid = true ->
  find_post pid (posts d) = Some p ->
  (find (fun c => String.eqb (comment_id c) cid) (comments p) = None ->
     response_of (deleteComment uid pid cid) d = comment_not_found /\
     store_after (deleteComment uid pid cid) d = d) /\
  (forall c,
     find (fun c => String.eqb (comment_id c) cid) (comments p) = Some c ->
     comment_user c <> uid ->
     response_of (deleteComment uid pid cid) d = user_not_authorized /\
     store_after (deleteComment uid pid cid) d = d).
Proof.
  intros Hv Hp. split.
  - intros Hc. unfold deleteComment. run_handler. rewrite Hv. simpl.
    rewrite Hp. simpl. rewrite Hc. now split.
  - intros c Hc Hne. unfold response_of, store_after.
    rewrite (deleteComment_non_author_answers_401 d uid pid cid p c Hv Hp Hc Hne).
    now split.
Qed.

(** X11: deleting a comment on a post that is not stored, or under a
    malformed post identifier, ends in 500 "Server Error" with one log
    line, where deleting a post answers 404; the store is left as it
    was. *)
Theorem deleteComment_no_post (d : Store) (uid pid cid : string) :
  validObjectId pid = false \/ find_post pid (posts d) = None ->
  response_of (deleteComment uid pid cid) d = server_error /\
  store_after (deleteComment uid pid cid) d = d /\
  length (console_of (deleteComment uid pid cid) d) = 1.
Proof.
  intros H. unfold deleteComment. run_handler.
  destruct (validObjectId pid); simpl; [|now repeat split].
  destruct H as [H|H]; [discriminate|]. rewrite H. now repeat split.
Qed.

Lemma indexOf_app_first (x : string) (l1 l2 : list string) :
  ~ In x l1 -> indexOf x (l1 ++ x :: l2) = Z.of_nat (length l1).
Proof.
  induction l1 as [|y l1 IH]; simpl; intros Hn.
  - now rewrite String.eqb_refl.
  - destruct (String.eqb_spec y x) as [E|E]; [exfalso; apply Hn; now left|].
    rewrite IH by (intros F; apply Hn; now right).
    destruct (Z.ltb_spec (Z.of_nat (length l1)) 0); lia.
Qed.

Lemma deleteComment_run_split (d : Store) (uid pid cid : string) (p : Post)
      (c c1 : Comment) (l1 l2 : list Comment) :
  validObjectId pid = true ->
  find_post pid (posts d) = Some p ->
  find (fun c => String.eqb (comment_id c) cid) (comments p) = Some c ->
  comment_user c = uid ->
  comments p = l1 ++ c1 :: l2 ->
  comment_user c1 = uid ->
  ~ In uid (map comment_user l1) ->
  run (deleteComment uid pid cid) d =
    (inr tt,
     mkHState
       (mkStore (users d) (save_post (set_comments p (l1 ++ l2)) (posts d)))
       (ok_json (json_of_comments (l1 ++ l2))) []).
Proof.
  intros Hv Hp Hc Hu Hl Hu1 Hn. unfold deleteComment. run_handler.
  rewrite Hv. simpl. rewrite Hp. simpl. rewrite Hc, Hu, String.eqb_refl. simpl.
  rewrite Hl, map_app. simpl. rewrite Hu1, (indexOf_app_first _ _ _ Hn).
  rewrite length_map, splice1_middle. reflexivity.
Qed.

(** X12: when the comment the request names is the requester's first
    comment in the post's list (so whenever the requester has one comment
    on the post), it is the one removed: the list keeps every other
    comment in its place. *)
Theorem deleteComment_own_first_comment
        (d : Store) (uid pid cid : string) (p : Post) (c : Comment)
        (l1 l2 : list Comment) :
  validObjectId pid = true ->
  find_post pid (posts d) = Some p ->
  find (fun c => String.eqb (comment_id c) cid) (comments p) = Some c ->
  comment_user c = uid ->
  comments p = l1 ++ c :: l2 ->
  ~ In uid (map comment_user l1) ->
  response_of (deleteComment uid pid cid) d =
    ok_json (json_of_comments (l1 ++ l2)) /\
  find_post pid (posts (store_after (deleteComment uid pid cid) d)) =
    Some (set_comments p (l1 ++ l2)).
Proof.
  intros Hv Hp Hc Hu Hl Hn. unfold response_of, store_after.
  rewrite (deleteComment_run_split d uid pid cid p c c l1 l2 Hv Hp Hc Hu Hl Hu Hn).
  simpl. split; [reflexivity|].
  eapply find_post_save_id; [exact Hp|]. simpl. eapply find_post_id. exact Hp.
Qed.

Lemma set_comments_back (p : Post) (cs : list Comment) :
  set_comments (set_comments p cs) (comments p) = p.
Proof. now destruct p. Qed.

Lemma set_likes_back (p : Post) (ls : list Like) :
  set_likes (set_likes p ls) (likes p) = p.
Proof. now destruct p. Qed.

Lemma set_likes_same (p : Post) : set_likes p (likes p) = p.
Proof. now destruct p. Qed.

(** X13: adding a comment and then deleting it (by the identifier it was
    given, as the same user) brings the post back to what it was, and the
    delete answers with the old comment list. *)
Theorem addComment_then_deleteComment
        (d : Store) (env : Env) (uid pid text : string) (u : User) (p : Post) :
  text <> "" ->
  validObjectId uid = true ->
  find_user uid (users d) = Some u ->
  validObjectId pid = true ->
  find_post pid (posts d) = Some p ->
  let d1 := store_after (addComment env uid pid text) d in
  let d2 := store_after (deleteComment uid pid (env_oid env)) d1 in
  response_of (deleteComment uid pid (env_oid env)) d1 =
    ok_json (json_of_comments (comments p)) /\
  find_post pid (posts d2) = Some p /\
  users d2 = users d.
Proof.
  intros Ht Hv Hu Hvp Hp d1 d2.
  pose proof (addComment_run_ok d env uid pid text u p Ht Hv Hu Hvp Hp) as Hrun.
  assert (Hid : post_id p = pid) by (eapply find_post_id; eassumption).
  set (c := new_comment env uid text u) in *.
  set (p1 := set_comments p (c :: comments p)) in *.
  assert (Hd1 : d1 = mkStore (users d) (save_post p1 (posts d))).
  { unfold d1, store_after. now rewrite Hrun. }
  assert (Hp1 : find_post pid (posts d1) = Some p1).
  { rewrite Hd1. simpl. eapply find_post_save_id; eassumption. }
  assert (Hc : find (fun c0 => String.eqb (comment_id c0) (env_oid env))
                    (comments p1) = Some c).
  { simpl. now rewrite String.eqb_refl. }
  pose proof (deleteComment_run_split d1 uid pid (env_oid env) p1 c c []
                (comments p) Hvp Hp1 Hc eq_refl eq_refl eq_refl
                (fun F : In uid [] => F)) as Hdel.
  simpl app in Hdel. unfold p1 in Hdel at 1. rewrite set_comments_back in Hdel.
  unfold d2, response_of, store_after. rewrite Hdel. simpl.
  split; [reflexivity|]. split.
  - eapply find_post_save_id; eassumption.
  - now rewrite Hd1.
Qed.

(** X14: liking a stored post one has not liked and then unliking it
    brings the post back to what it was; the unlike answers with the old
    like list. *)
Theorem likePost_then_unlikePost (d : Store) (uid pid : string) (p : Post) :
  validObjectId pid = true ->
  find_post pid (posts d) = Some p ->
  ~ In uid (map like_user (likes p)) ->
  let d1 := store_after (likePost uid pid) d in
  let d2 := store_after (unlikePost uid pid) d1 in
  response_of (unlikePost uid pid) d1 = ok_json (json_of_likes (likes p)) /\
  find_post pid (posts d2) = Some p /\
  users d2 = users d.
Proof.
  intros Hv Hp Hn d1 d2.
  assert (Hid : post_id p = pid) by (eapply find_post_id; eassumption).
  set (p1 := set_likes p (mkLike uid :: likes p)).
  assert (Hd1 : d1 = mkStore (users d) (save_post p1 (posts d))).
  { unfold d1, store_after. now rewrite (likePost_absent d uid pid p Hv Hp Hn). }
  assert (Hp1 : find_post pid (posts d1) = Some p1).
  { rewrite Hd1. simpl. eapply find_post_save_id; eassumption. }
  assert (Hi : indexOf uid (map like_user (likes p1)) = Z.of_nat (length (@nil Like))).
  { simpl. now rewrite String.eqb_refl. }
  pose proof (unlikePost_present d1 uid pid p1 [] (likes p) Hv Hp1 eq_refl Hi)
    as Hun.
  simpl app in Hun. unfold p1 in Hun at 1. rewrite set_likes_back in Hun.
  unfold d2, response_of, store_after. rewrite Hun. simpl.
  split; [reflexivity|]. split.
  - eapply find_post_save_id; eassumption.
  - now rewrite Hd1.
Qed.

(** X15: a like or unlike request changes at most the like list of the
    post it names: the users stay, every other post is found as before,
    and the named post keeps its author, text, date and comments. *)
Theorem like_unlike_touch_likes_only (d : Store) (uid pid : string) :
  (users (store_after (likePost uid pid) d) = users d /\
   (forall pid', pid' <> pid ->
      find_post pid' (posts (store_after (likePost uid pid) d)) =
      find_post pid' (posts d)) /\
   (forall p, find_post pid (posts d) = Some p ->
      exists ls, find_post pid (posts (store_after (likePost uid pid) d)) =
                 Some (set_likes p ls))) /\
  (users (store_after (unlikePost uid pid) d) = users d /\
   (forall pid', pid' <> pid ->
      find_post pid' (posts (store_after (unlikePost uid pid) d)) =
      find_post pid' (posts d)) /\
   (forall p, find_post pid (posts d) = Some p ->
      exists ls, find_post pid (posts (store_after (unlikePost uid pid) d)) =
                 Some (set_likes p ls))).
Proof.
  split.
  - unfold likePost, likePost_try. run_handler.
    destruct (validObjectId pid); simpl.
    2:{ repeat split. intros p Hp. exists (likes p). now rewrite set_likes_same. }
    destruct (find_post pid (posts d)) as [p|] eqn:Hp; simpl.
    2:{ repeat split. intros p Hp'. discriminate. }
    assert (Hid : post_id p = pid) by (eapply find_post_id; eassumption).
    destruct (length (List.filter (is_user uid) (likes p))); simpl.
    + repeat split.
      * intros pid' Hne. apply find_post_save_other. simpl. congruence.
      * intros q [= <-]. exists (mkLike uid :: likes p).
        eapply find_post_save_id; eassumption.
    + repeat split. intros q Hq. exists (likes q). rewrite set_likes_same.
      congruence.
  - unfold unlikePost, unlikePost_try. run_handler.
    destruct (validObjectId pid); simpl.
    2:{ repeat split. intros p Hp. exists (likes p). now rewrite set_likes_same. }
    destruct (find_post pid (posts d)) as [p|] eqn:Hp; simpl.
    2:{ repeat split. intros p Hp'. discriminate. }
    assert (Hid : post_id p = pid) by (eapply find_post_id; eassumption).
    destruct (length (List.filter (is_user uid) (likes p))); simpl.
    + repeat split. intros q Hq. exists (likes q). rewrite set_likes_same.
      congruence.
    + repeat split.
      * intros pid' Hne. apply find_post_save_other. simpl. congruence.
      * intros q [= <-].
        exists (splice1 (indexOf uid (map like_user (likes p))) (likes p)).
        eapply find_post_save_id; eassumption.
Qed.

(** X16: a like or unlike request is answered exactly when its post is
    stored under a well-formed identifier; otherwise nothing is sent. *)
Theorem like_unlike_answer_iff_post_found (d : Store) (uid pid : string) :
  (body (response_of (likePost uid pid) d) <> None <->
   validObjectId pid = true /\ find_post pid (posts d) <> None) /\
  (body (response_of (unlikePost uid pid) d) <> None <->
   validObjectId pid = true /\ find_post pid (posts d) <> None).
Proof.
  split.
  - unfold likePost, likePost_try. run_handler.
    destruct (validObjectId pid); simpl; [|split; [congruence|intros [F _]; discriminate]].
    destruct (find_post pid (posts d)) as [p|]; simpl;
      [|split; [congruence|intros [_ F]; congruence]].
    destruct (length (List.filter (is_user uid) (likes p))); simpl;
      split; try discriminate; intros _; split; congruence.
  - unfold unlikePost, unlikePost_try. run_handler.
    destruct (validObjectId pid); simpl; [|split; [congruence|intros [F _]; discriminate]].
    destruct (find_post pid (posts d)) as [p|]; simpl;
      [|split; [congruence|intros [_ F]; congruence]].
    destruct (length (List.filter (is_user uid) (likes p))); simpl;
      split; try discriminate; intros _; split; congruence.
Qed.

(** ** What the routes leave alone *)

(** X17: the post routes never touch the users, and registration never
    touches the posts. *)
Theorem routes_keep_the_other_collection (d : Store) (env : Env) (r : Request) :
  (is_register r = false -> users (store_after (handle env r) d) = users d) /\
  (is_register r = true -> posts (store_after (handle env r) d) = posts d).
Proof.
  split; intros Hr; destruct r; try discriminate; simpl.
  - unfold createPost, check; run_handler; split_cases; reflexivity.
  - reflexivity.
  - unfold getPost, catch_object_id; run_handler; split_cases; reflexivity.
  - unfold deletePost, catch_object_id; run_handler; split_cases; reflexivity.
  - unfold likePost, likePost_try; run_handler; split_cases; reflexivity.
  - unfold unlikePost, unlikePost_try; run_handler; split_cases; reflexivity.
  - unfold addComment, check; run_handler; split_cases; reflexivity.
  - unfold deleteComment; run_handler; split_cases; reflexivity.
  - unfold register.
    destruct (register_errors name email password) as [|e es];
      run_handler; split_cases; reflexivity.
Qed.

Lemma handle_users_grow (d : Store) (env : Env) (r : Request) :
  exists l, users (store_after (handle env r) d) = users d ++ l.
Proof.
  destruct r; simpl.
  1:{ unfold register.
      destruct (register_errors name email password) as [|e es];
        run_handler; split_cases;
        first [ now exists []; rewrite app_nil_r | eexists; reflexivity ]. }
  all: exists []; rewrite app_nil_r.
  - unfold createPost, check; run_handler; split_cases; reflexivity.
  - reflexivity.
  - unfold getPost, catch_object_id; run_handler; split_cases; reflexivity.
  - unfold deletePost, catch_object_id; run_handler; split_cases; reflexivity.
  - unfold likePost, likePost_try; run_handler; split_cases; reflexivity.
  - unfold unlikePost, unlikePost_try; run_handler; split_cases; reflexivity.
  - unfold addComment, check; run_handler; split_cases; reflexivity.
  - unfold deleteComment; run_handler; split_cases; reflexivity.
Qed.

(** X18: no sequence of requests removes or alters a stored user: the
    users after it are the users before it, in their order, followed by
    the newly registered ones. *)
Theorem serve_users_only_grow (trace : list (Env * Request)) (d : Store) :
  exists l, users (serve trace d) = users d ++ l.
Proof.
  revert d. induction trace as [|[env r] trace IH]; intros d; simpl.
  - exists []. now rewrite app_nil_r.
  - destruct (IH (store_after (handle env r) d)) as [l2 Hl2].
    destruct (handle_users_grow d env r) as [l1 Hl1].
    exists (l1 ++ l2). now rewrite Hl2, Hl1, app_assoc.
Qed.

(** ** Identifiers and emails stay distinct *)

Lemma find_user_none_iff (uid : string) (us : list User) :
  find_user uid us = None <-> ~ In uid (map user_id us).
Proof.
  unfold find_user. induction us as [|q qs IH]; simpl.
  - split; [intros _ []|reflexivity].
  - destruct (String.eqb_spec (user_id q) uid) as [E|E].
    + split; [discriminate|]. intros H. exfalso. apply H. now left.
    + rewrite IH. split.
      * intros H [F|F]; [now apply E|now apply H].
      * intros H F. apply H. now right.
Qed.

Lemma find_email_none_iff (email : string) (us : list User) :
  find_email email us = None <-> ~ In email (map user_email us).
Proof.
  unfold find_email. induction us as [|q qs IH]; simpl.
  - split; [intros _ []|reflexivity].
  - destruct (String.eqb_spec (user_email q) email) as [E|E].
    + split; [discriminate|]. intros H. exfalso. apply H. now left.
    + rewrite IH. split.
      * intros H [F|F]; [now apply E|now apply H].
      * intros H F. apply H. now right.
Qed.

Lemma NoDup_snoc {A} (x : A) (l : list A) :
  List.NoDup l -> ~ In x l -> List.NoDup (l ++ [x]).
Proof.
  induction 1 as [|y l Hy Hl IH]; simpl; intros Hx.
  - constructor; [intros []|constructor].
  - constructor.
    + intros F. apply in_app_or in F as [F|[F|[]]]; [now apply Hy|].
      apply Hx. now left.
    + apply IH. intros F. apply Hx. now right.
Qed.

Lemma map_post_id_save (p : Post) (ps : list Post) :
  map post_id (save_post p ps) = map post_id ps.
Proof.
  unfold save_post. induction ps as [|q qs IH]; simpl; [reflexivity|].
  rewrite IH. destruct (String.eqb_spec (post_id q) (post_id p)) as [E|E];
    [now rewrite E|reflexivity].
Qed.

Lemma NoDup_map_filter {A B} (f : A -> B) (g : A -> bool) (l : list A) :
  List.NoDup (map f l) -> List.NoDup (map f (List.filter g l)).
Proof.
  induction l as [|a l IH]; simpl; intros H; [constructor|].
  inversion H as [|? ? Hn Hd]; subst.
  destruct (g a); simpl; [|now apply IH].
  constructor; [|now apply IH].
  intros F. apply Hn. apply in_map_iff in F as (y & <- & Hy).
  apply in_map. now apply filter_In in Hy as [Hy _].
Qed.

(** Closes the three invariants on the store a route leaves behind. *)
Ltac wf_goal Hp Hu He :=
  unfold store_wf, post_ids_unique, user_ids_unique, emails_unique in *;
  simpl; rewrite ?map_post_id_save, ?map_app; simpl;
  repeat split;
  first
    [ assumption
    | unfold remove_post; apply NoDup_map_filter; assumption
    | apply NoDup_snoc; [assumption|];
      first [ apply find_post_none_iff | apply find_user_none_iff
            | apply find_email_none_iff ]; assumption ].

Lemma handle_preserves_store_wf (d : Store) (env : Env) (r : Request) :
  store_wf d -> store_wf (store_after (handle env r) d).
Proof.
  intros (Hp & Hu & He). destruct r; simpl.
  - unfold register.
    destruct (register_errors name email password) as [|e es];
      run_handler; split_cases; wf_goal Hp Hu He.
  - unfold createPost, check; run_handler; split_cases; wf_goal Hp Hu He.
  - unfold listPosts; run_handler; wf_goal Hp Hu He.
  - unfold getPost, catch_object_id; run_handler; split_cases; wf_goal Hp Hu He.
  - unfold deletePost, catch_object_id; run_handler; split_cases; wf_goal Hp Hu He.
  - unfold likePost, likePost_try; run_handler; split_cases; wf_goal Hp Hu He.
  - unfold unlikePost, unlikePost_try; run_handler; split_cases; wf_goal Hp Hu He.
  - unfold addComment, check; run_handler; split_cases; wf_goal Hp Hu He.
  - unfold deleteComment; run_handler; split_cases; wf_goal Hp Hu He.
Qed.

Lemma serve_preserves_store_wf (trace : list (Env * Request)) (d : Store) :
  store_wf d -> store_wf (serve trace d).
Proof.
  revert d. induction trace as [|[env r] trace IH]; intros d Hd; simpl.
  - exact Hd.
  - apply IH. now apply handle_preserves_store_wf.
Qed.

(** X19: on a store where no two posts share an identifier and no two
    users share an identifier or an email, every request and every
    sequence of requests leaves such a store; every store reached from
    the empty one is such a store. *)
Theorem store_wf_invariant (d : Store) :
  store_wf d ->
  (forall env r, store_wf (store_after (handle env r) d)) /\
  (forall trace, store_wf (serve trace d)) /\
  (forall trace, store_wf (serve trace empty_store)).
Proof.
  intros Hd. split; [|split].
  - intros env r. now apply handle_preserves_store_wf.
  - intros trace. now apply serve_preserves_store_wf.
  - intros trace. apply serve_preserves_store_wf. repeat split; constructor.
Qed.

(** ** Which requests get an answer *)

(** X20: every request other than a registration, a like or an unlike
    gets a response, whatever the store holds. *)
Theorem post_routes_always_answer (d : Store) (env : Env) (r : Request) :
  is_register r = false ->
  is_like_or_unlike r = false ->
  body (response_of (handle env r) d) <> None.
Proof.
  intros Hr Hl. destruct r; try discriminate Hr; try discriminate Hl; simpl.
  - unfold createPost, check; run_handler; split_cases; congruence.
  - unfold listPosts; run_handler; congruence.
  - unfold getPost, catch_object_id; run_handler; split_cases; congruence.
  - unfold deletePost, catch_object_id; run_handler; split_cases; congruence.
  - unfold addComment, check; run_handler; split_cases; congruence.
  - unfold deleteComment; run_handler; split_cases; congruence.
Qed.

(** ** Registration, continued *)

(** X21: a valid registration with a new email stores the user with the
    name, the email and the avatar gravatar gives for the email.  When
    signing succeeds the answer is 200 with the token of the payload that
    holds the new identifier; when signing fails the user is stored all
    the same and nothing is sent. *)
Theorem register_new_user (d : Store) (env : Env) (name email password : string) :
  valid_registration name email password = true ->
  find_email email (users d) = None ->
  find_user (env_oid env) (users d) = None ->
  let u := registered_user env name email password in
  store_after (register env name email password) d =
    mkStore (users d ++ [u]) (posts d) /\
  user_id u = env_oid env /\ user_name u = name /\ user_email u = email /\
  user_avatar u = gravatar_url email /\
  (forall token,
     jwt_sign (jwt_payload (env_oid env)) jwtSecret 360000%Z = Some token ->
     response_of (register env name email password) d =
       ok_json (JObj [("token", JStr token)])) /\
  (jwt_sign (jwt_payload (env_oid env)) jwtSecret 360000%Z = None ->
     response_of (register env name email password) d = fresh_res).
Proof.
  intros Hv He Hf u.
  destruct (register_valid_absent d env name email password Hv He Hf) as [Hs Hr].
  split; [exact Hs|]. repeat split.
  - intros token Ht. now rewrite Hr, Ht.
  - intros Ht. now rewrite Hr, Ht.
Qed.

(** X22: when the store refuses the insert of a registration (the
    identifier is taken), the catch block logs the number 500 and then
    fails itself, calling [send] on what [console.error] returns: no
    response is sent and the store is left as it was. *)
Theorem register_insert_refused (d : Store) (env : Env)
        (name email password : string) (v : User) :
  valid_registration name email password = true ->
  find_email email (users d) = None ->
  find_user (env_oid env) (users d) = Some v ->
  run (register env name email password) d =
    (inl (TypeError "Cannot read property 'send' of undefined"),
     mkHState d fresh_res [JNum 500]).
Proof.
  intros Hv He Hf. apply register_errors_nil in Hv.
  unfold register. rewrite Hv. run_handler. rewrite He. simpl.
  unfold insert_user. simpl. rewrite Hf. reflexivity.
Qed.

Lemma In_check (x param msg value : string) (ok : bool) :
  In x (map verr_param (check param msg value ok)) <-> ok = false /\ param = x.
Proof.
  unfold check. destruct ok; simpl.
  - split; [intros []|intros [F _]; discriminate].
  - split; [intros [H|[]]; now split|intros [_ H]; now left].
Qed.

(** X23: the validation of a registration reports every failed check,
    not the first one only: a field is named in the error list exactly
    when its check fails. *)
Theorem register_reports_every_failed_check (name email password : string) :
  let params := map verr_param (register_errors name email password) in
  (In "name" params <-> name = "") /\
  (In "email" params <-> isEmail email = false) /\
  (In "password" params <-> String.length password < 6).
Proof.
  assert (Hn : negb (isEmpty name) = false <-> name = "").
  { destruct name; simpl; split; congruence. }
  assert (Hp : isLength_min 6 password = false <-> String.length password < 6).
  { unfold isLength_min. apply Nat.leb_gt. }
  unfold register_errors. simpl.
  rewrite !map_app, !in_app_iff, !In_check, Hn, Hp.
  split; [|split]; split; intros H.
  - destruct H as [[H _]|[[_ F]|[_ F]]]; [exact H|discriminate F|discriminate F].
  - left. now split.
  - destruct H as [[_ F]|[[H _]|[_ F]]]; [discriminate F|exact H|discriminate F].
  - right. left. now split.
  - destruct H as [[_ F]|[[_ F]|[H _]]]; [discriminate F|discriminate F|exact H].
  - right. right. now split.
Qed.

(** ** What an unlike and a comment deletion leave behind *)

(** X24: on a post whose like list holds nobody twice, an unlike by a user
    who liked it leaves a list without that user, and with exactly the
    other users it held. *)
Theorem unlikePost_removes_user (d : Store) (uid pid : string) (p : Post) :
  validObjectId pid = true ->
  find_post pid (posts d) = Some p ->
  List.NoDup (map like_user (likes p)) ->
  In uid (map like_user (likes p)) ->
  exists p',
    find_post pid (posts (store_after (unlikePost uid pid) d)) = Some p' /\
    ~ In uid (map like_user (likes p')) /\
    (forall v, v <> uid ->
       (In v (map like_user (likes p')) <-> In v (map like_user (likes p)))).
Proof.
  intros Hv Hp Hnd Hin.
  destruct (in_likes_split _ _ Hin) as (l1 & l2 & Hl & Hn & Hi).
  exists (set_likes p (l1 ++ l2)). unfold store_after.
  rewrite (unlikePost_present d uid pid p l1 l2 Hv Hp Hl Hi). simpl.
  split; [|split].
  - eapply find_post_save_id; [exact Hp|]. simpl. eapply find_post_id. exact Hp.
  - rewrite Hl, map_app in Hnd. simpl in Hnd.
    apply NoDup_remove_2 in Hnd. now rewrite map_app.
  - intros v Hne. rewrite Hl, !map_app, !in_app_iff. simpl. split.
    + intros [H|H]; [now left|right; now right].
    + intros [H|[H|H]]; [now left|congruence|now right].
Qed.

Lemma splice_first_of_author (uid : string) (cs : list Comment) :
  In uid (map comment_user cs) ->
  comments_of_others uid
    (splice1 (indexOf uid (map comment_user cs)) cs) =
  comments_of_others uid cs.
Proof.
  intros Hin. destruct (indexOf_first _ _ Hin) as (m1 & m2 & Hm & Hn & Hi).
  apply map_eq_app in Hm as (l1 & r & -> & <- & Hr).
  apply map_eq_cons in Hr as (c1 & l2 & -> & Hu1 & _).
  rewrite Hi, length_map, splice1_middle. unfold comments_of_others.
  rewrite !List.filter_app. simpl. now rewrite Hu1, String.eqb_refl.
Qed.

(** X25: a comment deletion never removes a comment of somebody else: on
    a stored post, whatever comment identifier the requester names, the
    comments written by other users are all still there afterwards, in
    their order. *)
Theorem deleteComment_keeps_comments_of_others
        (d : Store) (uid pid cid : string) (p : Post) :
  find_post pid (posts d) = Some p ->
  exists p',
    find_post pid (posts (store_after (deleteComment uid pid cid) d)) = Some p' /\
    comments_of_others uid (comments p') = comments_of_others uid (comments p) /\
    likes p' = likes p.
Proof.
  intros Hp. unfold deleteComment. run_handler.
  destruct (validObjectId pid); simpl; [|now exists p].
  rewrite Hp. simpl.
  destruct (find (fun c => String.eqb (comment_id c) cid) (comments p))
    as [c|] eqn:Hc; simpl; [|now exists p].
  destruct (String.eqb_spec (comment_user c) uid) as [E|E]; simpl; [|now exists p].
  exists (set_comments p
            (splice1 (indexOf uid (map comment_user (comments p))) (comments p))).
  split; [|split; [|reflexivity]].
  - eapply find_post_save_id; [exact Hp|]. simpl. eapply find_post_id. exact Hp.
  - simpl. apply splice_first_of_author.
    apply find_some in Hc as [Hc _]. rewrite <- E. now apply in_map.
Qed.

End Routes.

(** ** The routes on the small store *)

(** C1: Alice deletes the older of her two comments on the post.  The
    route finds it by its identifier, then cuts out the entry at the first
    index whose author is Alice: the newer comment goes, and the one the
    request names stays. *)
Theorem deleteComment_removes_other_comment :
  find (fun c => String.eqb (comment_id c) (comment_id comment_a)) (comments post1)
    = Some comment_a /\
  comment_user comment_a = alice_id /\
  response_of (deleteComment hex24 alice_id post1_id (comment_id comment_a)) store1
    = mkRes 200 (Some (BJson (json_of_comments [comment_a]))) /\
  store_after (deleteComment hex24 alice_id post1_id (comment_id comment_a)) store1
    = mkStore [alice; bob] [set_comments post1 [comment_a]].
Proof. repeat split. Qed.

Lemma likePost_guard_and_prepend_witness :
  hex24 post1_id = true /\
  find_post post1_id (posts store1) = Some post1 /\
  response_of (likePost hex24 alice_id post1_id) store1 = already_liked /\
  response_of (likePost hex24 bob_id post1_id) store1 =
    mkRes 200 (Some (BJson (json_of_likes [mkLike bob_id; mkLike alice_id]))).
Proof.
  pose proof (likePost_guard_and_prepend hex24 store1 alice_id post1_id post1
                eq_refl eq_refl) as Ha.
  pose proof (likePost_guard_and_prepend hex24 store1 bob_id post1_id post1
                eq_refl eq_refl) as Hb.
  split; [reflexivity|]. split; [reflexivity|]. split.
  - apply (proj1 Ha). vm_compute. now left.
  - apply (proj1 (proj2 Hb)). vm_compute. intros [F|[]]. discriminate.
Defined.

Lemma unlikePost_guard_and_excise_witness :
  hex24 post1_id = true /\
  find_post post1_id (posts store1) = Some post1 /\
  response_of (unlikePost hex24 bob_id post1_id) store1 = not_yet_liked /\
  store_after (unlikePost hex24 bob_id post1_id) store1 = store1.
Proof.
  split; [reflexivity|]. split; [reflexivity|].
  apply (proj1 (unlikePost_guard_and_excise hex24 store1 bob_id post1_id post1
                  eq_refl eq_refl)).
  vm_compute. intros [F|[]]. discriminate.
Defined.

Lemma like_unlike_missing_post_no_response_witness :
  hex24 missing_id = true /\
  find_post missing_id (posts store1) = None /\
  body (response_of (likePost hex24 bob_id missing_id) store1) = None /\
  body (response_of (unlikePost hex24 bob_id missing_id) store1) = None.
Proof.
  pose proof (like_unlike_missing_post_no_response hex24 store1 bob_id missing_id
                eq_refl eq_refl) as [(_ & _ & Hl) (_ & _ & Hu)].
  split; [reflexivity|]. split; [reflexivity|]. split; assumption.
Defined.

Lemma like_unlike_swallow_cast_error_witness :
  hex24 "not-an-id" = false /\
  response_of (getPost hex24 "not-an-id") store1 = invalid_post_id /\
  response_of (likePost hex24 bob_id "not-an-id") store1 = fresh_res /\
  console_of (likePost hex24 bob_id "not-an-id") store1 = [].
Proof.
  pose proof (like_unlike_swallow_cast_error hex24 store1 bob_id "not-an-id"
                eq_refl) as [[Hg _] [(_ & Hl & Hc) _]].
  split; [reflexivity|]. repeat split; assumption.
Defined.

Lemma deletePost_non_author_answers_500_witness :
  hex24 post1_id = true /\
  find_post post1_id (posts store1) = Some post1 /\
  post_user post1 <> bob_id /\
  response_of (deletePost hex24 bob_id post1_id) store1 = server_error /\
  store_after (deletePost hex24 bob_id post1_id) store1 = store1.
Proof.
  assert (Hne : post_user post1 <> bob_id) by (vm_compute; discriminate).
  pose proof (deletePost_non_author_answers_500 hex24 store1 bob_id post1_id
                post1 eq_refl eq_refl Hne) as (Hr & _ & _ & Hs).
  split; [reflexivity|]. split; [reflexivity|]. repeat split; assumption.
Defined.

Lemma register_duplicate_email_witness :
  valid_registration has_at "Al" "alice@x.com" "secret9" = true /\
  find_email "alice@x.com" (users store1) = Some alice /\
  response_of (register has_at toy_gravatar toy_hash toy_jwt "jwtSecret" env1
                        "Al" "alice@x.com" "secret9") store1 = duplicate_email.
Proof.
  split; [reflexivity|]. split; [reflexivity|].
  apply (proj1 (register_duplicate_email has_at toy_gravatar toy_hash toy_jwt
                  "jwtSecret" store1 env1 "Al" "alice@x.com" "secret9" eq_refl)
               alice).
  reflexivity.
Defined.

Lemma register_rejects_invalid_input_witness :
  String.length "12345" < 6 /\
  exists errors,
    errors <> [] /\
    response_of (register has_at toy_gravatar toy_hash toy_jwt "jwtSecret" env1
                          "Carol" "carol@x.com" "12345") store1
      = mkRes 400 (Some (BJson (json_of_errors errors))) /\
    store_after (register has_at toy_gravatar toy_hash toy_jwt "jwtSecret" env1
                          "Carol" "carol@x.com" "12345") store1 = store1.
Proof.
  assert (Hlen : String.length "12345" < 6) by (vm_compute; lia).
  split; [exact Hlen|].
  destruct (register_rejects_invalid_input has_at toy_gravatar toy_hash toy_jwt
              "jwtSecret" store1 env1 "Carol" "carol@x.com" "12345"
              (or_introl Hlen)) as (errors & Hne & _ & Hr & Hs & _).
  exists errors. split; [exact Hne|]. split; [apply Hr|exact Hs].
Defined.

Lemma password_hashed_never_serialised_witness :
  valid_registration has_at "Carol" "carol@x.com" "secret3" = true /\
  find_email "carol@x.com" (users store1) = None /\
  find_user (env_oid env1) (users store1) = None /\
  exists u,
    users (store_after (register has_at toy_gravatar toy_hash toy_jwt "jwtSecret"
                                 env1 "Carol" "carol@x.com" "secret3") store1)
      = users store1 ++ [u] /\
    user_password u = Some (toy_hash "secret3" "salt3").
Proof.
  split; [reflexivity|]. split; [reflexivity|]. split; [reflexivity|].
  destruct (password_hashed_never_serialised hex24 has_at toy_gravatar toy_hash
              toy_jwt "jwtSecret" store1 env1 "Carol" "carol@x.com" "secret3"
              eq_refl eq_refl eq_refl) as [(u & Hu & _ & Hp) _].
  exists u. split; assumption.
Defined.

Lemma likes_unique_invariant_witness :
  likes_unique store1 /\
  likes_unique
    (serve hex24 has_at toy_gravatar toy_hash toy_jwt "jwtSecret"
           [(env1, LikePost bob_id post1_id); (env1, LikePost bob_id post1_id);
            (env1, UnlikePost alice_id post1_id)]
           store1).
Proof.
  assert (H1 : likes_unique store1).
  { repeat constructor. simpl. intros []. }
  split; [exact H1|].
  apply (likes_unique_invariant hex24 has_at toy_gravatar toy_hash toy_jwt
           "jwtSecret" store1 H1).
Defined.

(** ** The further properties on the small store *)

Lemma deletePost_by_author_witness :
  hex24 post1_id = true /\
  find_post post1_id (posts store1) = Some post1 /\
  post_user post1 = alice_id /\
  response_of (deletePost hex24 alice_id post1_id) store1 = post_removed /\
  find_post post1_id (posts (store_after (deletePost hex24 alice_id post1_id) store1))
    = None.
Proof.
  pose proof (deletePost_by_author hex24 store1 alice_id post1_id post1
                eq_refl eq_refl eq_refl) as H.
  cbv zeta in H. destruct H as (Hr & _ & _ & Hn & _).
  split; [reflexivity|]. split; [reflexivity|]. split; [reflexivity|].
  split; assumption.
Defined.

Lemma deletePost_no_post_witness :
  find_post missing_id (posts store1) = None /\
  store_after (deletePost hex24 alice_id missing_id) store1 = store1 /\
  response_of (deletePost hex24 alice_id missing_id) store1 = post_not_found.
Proof.
  destruct (deletePost_no_post hex24 store1 alice_id missing_id
              (or_intror eq_refl)) as (Hs & Hr & _).
  split; [reflexivity|]. split; [exact Hs|exact Hr].
Defined.

Lemma deletePost_keeps_posts_of_others_witness :
  post_ids_unique store1 /\
  In post1 (posts store1) /\
  post_user post1 <> bob_id /\
  In post1 (posts (store_after (deletePost hex24 bob_id post1_id) store1)).
Proof.
  assert (Hu : post_ids_unique store1).
  { unfold post_ids_unique. simpl. constructor; [intros []|constructor]. }
  assert (Hi : In post1 (posts store1)) by now left.
  assert (Hn : post_user post1 <> bob_id) by (vm_compute; discriminate).
  split; [exact Hu|]. split; [exact Hi|]. split; [exact Hn|].
  exact (deletePost_keeps_posts_of_others hex24 store1 bob_id post1_id post1
           Hu Hi Hn).
Defined.

Lemma createPost_then_getPost_witness :
  "hello" <> "" /\
  hex24 alice_id = true /\
  find_user alice_id (users store1) = Some alice /\
  hex24 (env_oid env1) = true /\
  find_post (env_oid env1) (posts store1) = None /\
  response_of (getPost hex24 (env_oid env1))
              (store_after (createPost hex24 env1 alice_id "hello") store1)
    = ok_json (json_of_post (new_post env1 alice_id "hello" alice)).
Proof.
  assert (Ht : "hello" <> "") by discriminate.
  pose proof (createPost_then_getPost hex24 store1 env1 alice_id "hello" alice
                Ht eq_refl eq_refl eq_refl eq_refl) as H.
  cbv zeta in H. destruct H as (_ & _ & _ & _ & _ & _ & Hg).
  split; [exact Ht|]. repeat (split; [reflexivity|]). exact Hg.
Defined.

Lemma addComment_prepends_witness :
  "third" <> "" /\
  hex24 alice_id = true /\
  find_user alice_id (users store1) = Some alice /\
  hex24 post1_id = true /\
  find_post post1_id (posts store1) = Some post1 /\
  response_of (addComment hex24 env1 alice_id post1_id "third") store1 =
    ok_json (json_of_comments
               [new_comment env1 alice_id "third" alice; comment_b; comment_a]).
Proof.
  assert (Ht : "third" <> "") by discriminate.
  pose proof (addComment_prepends hex24 store1 env1 alice_id post1_id "third"
                alice post1 Ht eq_refl eq_refl eq_refl eq_refl) as H.
  cbv zeta in H. destruct H as (Hr & _).
  split; [exact Ht|]. repeat (split; [reflexivity|]). exact Hr.
Defined.

Lemma deleteComment_refusals_witness :
  hex24 post1_id = true /\
  find_post post1_id (posts store1) = Some post1 /\
  response_of (deleteComment hex24 alice_id post1_id missing_id) store1
    = comment_not_found /\
  response_of (deleteComment hex24 bob_id post1_id (comment_id comment_a)) store1
    = user_not_authorized.
Proof.
  pose proof (deleteComment_refusals hex24 store1 alice_id post1_id missing_id
                post1 eq_refl eq_refl) as [Ha _].
  pose proof (deleteComment_refusals hex24 store1 bob_id post1_id
                (comment_id comment_a) post1 eq_refl eq_refl) as [_ Hb].
  assert (Hn : comment_user comment_a <> bob_id) by (vm_compute; discriminate).
  split; [reflexivity|]. split; [reflexivity|]. split.
  - exact (proj1 (Ha eq_refl)).
  - exact (proj1 (Hb comment_a eq_refl Hn)).
Defined.

Lemma deleteComment_no_post_witness :
  find_post missing_id (posts store1) = None /\
  response_of (deleteComment hex24 alice_id missing_id (comment_id comment_a)) store1
    = server_error.
Proof.
  split; [reflexivity|].
  exact (proj1 (deleteComment_no_post hex24 store1 alice_id missing_id
                  (comment_id comment_a) (or_intror eq_refl))).
Defined.

Lemma deleteComment_own_first_comment_witness :
  comments post1 = [] ++ comment_b :: [comment_a] /\
  response_of (deleteComment hex24 alice_id post1_id (comment_id comment_b)) store1
    = ok_json (json_of_comments [comment_a]).
Proof.
  split; [reflexivity|].
  exact (proj1 (deleteComment_own_first_comment hex24 store1 alice_id post1_id
                  (comment_id comment_b) post1 comment_b [] [comment_a]
                  eq_refl eq_refl eq_refl eq_refl eq_refl
                  (fun F : In alice_id [] => F))).
Defined.

Lemma deleteComment_removes_first_by_author_witness :
  find (fun c => String.eqb (comment_id c) (comment_id comment_a)) (comments post1)
    = Some comment_a /\
  exists l1 c1 l2,
    comments post1 = l1 ++ c1 :: l2 /\
    response_of (deleteComment hex24 alice_id post1_id (comment_id comment_a)) store1
      = mkRes 200 (Some (BJson (json_of_comments (l1 ++ l2)))).
Proof.
  split; [reflexivity|].
  destruct (deleteComment_removes_first_by_author hex24 store1 alice_id post1_id
              (comment_id comment_a) post1 comment_a
              eq_refl eq_refl eq_refl eq_refl)
    as (l1 & c1 & l2 & Hl & _ & _ & Hr & _).
  exists l1, c1, l2. split; assumption.
Defined.

Lemma addComment_then_deleteComment_witness :
  "third" <> "" /\
  find_post post1_id
    (posts (store_after (deleteComment hex24 alice_id post1_id (env_oid env1))
              (store_after (addComment hex24 env1 alice_id post1_id "third")
                           store1)))
    = Some post1.
Proof.
  assert (Ht : "third" <> "") by discriminate.
  pose proof (addComment_then_deleteComment hex24 store1 env1 alice_id post1_id
                "third" alice post1 Ht eq_refl eq_refl eq_refl eq_refl) as H.
  cbv zeta in H. destruct H as (_ & Hp & _).
  split; [exact Ht|exact Hp].
Defined.

Lemma likePost_then_unlikePost_witness :
  ~ In bob_id (map like_user (likes post1)) /\
  find_post post1_id
    (posts (store_after (unlikePost hex24 bob_id post1_id)
              (store_after (likePost hex24 bob_id post1_id) store1)))
    = Some post1.
Proof.
  assert (Hn : ~ In bob_id (map like_user (likes post1))).
  { vm_compute. intros [F|[]]. discriminate. }
  pose proof (likePost_then_unlikePost hex24 store1 bob_id post1_id post1
                eq_refl eq_refl Hn) as H.
  cbv zeta in H. destruct H as (_ & Hp & _).
  split; [exact Hn|exact Hp].
Defined.

Lemma store_wf_invariant_witness :
  store_wf store1 /\
  store_wf
    (serve hex24 has_at toy_gravatar toy_hash toy_jwt "jwtSecret"
           [(env1, RegisterUser "Carol" "carol@x.com" "secret3");
            (env1, CreatePost alice_id "hello");
            (env1, DeletePost alice_id post1_id)]
           store1).
Proof.
  assert (H1 : store_wf store1).
  { unfold store_wf, post_ids_unique, user_ids_unique, emails_unique. simpl.
    repeat split; repeat constructor; simpl; intros F;
      repeat destruct F as [F|F]; try discriminate F; exact F. }
  split; [exact H1|].
  apply (proj1 (proj2 (store_wf_invariant hex24 has_at toy_gravatar toy_hash
                         toy_jwt "jwtSecret" store1 H1))).
Defined.

Lemma post_routes_always_answer_witness :
  is_register (GetPost bob_id "not-an-id") = false /\
  is_like_or_unlike (GetPost bob_id "not-an-id") = false /\
  body (response_of (handle hex24 has_at toy_gravatar toy_hash toy_jwt "jwtSecret"
                            env1 (GetPost bob_id "not-an-id")) store1) <> None.
Proof.
  split; [reflexivity|]. split; [reflexivity|].
  exact (post_routes_always_answer hex24 has_at toy_gravatar toy_hash toy_jwt
           "jwtSecret" store1 env1 (GetPost bob_id "not-an-id") eq_refl eq_refl).
Defined.

Lemma register_new_user_witness :
  valid_registration has_at "Carol" "carol@x.com" "secret3" = true /\
  find_email "carol@x.com" (users store1) = None /\
  find_user (env_oid env1) (users store1) = None /\
  response_of (register has_at toy_gravatar toy_hash toy_jwt "jwtSecret" env1
                        "Carol" "carol@x.com" "secret3") store1
    = ok_json (JObj [("token", JStr ("jwt." ++ carol_id))]).
Proof.
  pose proof (register_new_user has_at toy_gravatar toy_hash toy_jwt "jwtSecret"
                store1 env1 "Carol" "carol@x.com" "secret3"
                eq_refl eq_refl eq_refl) as H.
  cbv zeta in H. destruct H as (_ & _ & _ & _ & _ & Ht & _).
  repeat (split; [reflexivity|]). apply Ht. reflexivity.
Defined.

Lemma register_insert_refused_witness :
  find_user alice_id (users store1) = Some alice /\
  body (response_of (register has_at toy_gravatar toy_hash toy_jwt "jwtSecret"
                              (mkEnv alice_id 11 "salt4")
                              "Carol" "carol@x.com" "secret3") store1) = None.
Proof.
  split; [reflexivity|]. unfold response_of.
  rewrite (register_insert_refused has_at toy_gravatar toy_hash toy_jwt
             "jwtSecret" store1 (mkEnv alice_id 11 "salt4")
             "Carol" "carol@x.com" "secret3" alice eq_refl eq_refl eq_refl).
  reflexivity.
Defined.

Lemma unlikePost_removes_user_witness :
  List.NoDup (map like_user (likes post1)) /\
  In alice_id (map like_user (likes post1)) /\
  exists p',
    find_post post1_id (posts (store_after (unlikePost hex24 alice_id post1_id) store1))
      = Some p' /\
    ~ In alice_id (map like_user (likes p')).
Proof.
  assert (Hnd : List.NoDup (map like_user (likes post1))).
  { simpl. constructor; [intros []|constructor]. }
  assert (Hin : In alice_id (map like_user (likes post1))) by now left.
  split; [exact Hnd|]. split; [exact Hin|].
  destruct (unlikePost_removes_user hex24 store1 alice_id post1_id post1
              eq_refl eq_refl Hnd Hin) as (p' & Hp & Hn & _).
  exists p'. split; assumption.
Defined.

Lemma deleteComment_keeps_comments_of_others_witness :
  find_post post1_id (posts store1) = Some post1 /\
  exists p',
    find_post post1_id
      (posts (store_after (deleteComment hex24 bob_id post1_id (comment_id comment_a))
                store1)) = Some p' /\
    comments_of_others bob_id (comments p') = [comment_b; comment_a].
Proof.
  split; [reflexivity|].
  destruct (deleteComment_keeps_comments_of_others hex24 store1 bob_id post1_id
              (comment_id comment_a) post1 eq_refl) as (p' & Hp & Hc & _).
  exists p'. split; [exact Hp|]. rewrite Hc. reflexivity.
Defined.
